(** * Adaptive exam sessions and learner profiles

    A shallow embedding of the session / profile core of the platform:
    [learner_profile.py] (profile store), [exam_session.py] (session state
    machine) and [recommendation_engine.py] (derived study guidance),
    followed by the properties of that core.

    Conventions of the embedding.
    - Python [int] is [Z]; [len] is [Z.of_nat (length _)].
    - Python [float] is IEEE binary64.  Where the bits of a result are
      observable (the score of a session, a percentage that is rounded or
      printed) the computation is carried out on the kernel's binary64
      floats ([PrimFloat.float]) with the machine's division and
      multiplication.  The accuracy of a skill or topic and a duration are
      kept as the exact rational [Q] whose nearest double the code holds
      ([Py.nearest_float] gives that double back); they are only compared against
      decimal thresholds.
    - [datetime] values are [Z] (seconds); [datetime.now()] is an argument.
    - A Python [dict] whose iteration order is observable is an insertion
      ordered association list ([Dict]); the id-keyed registries of the two
      managers are [gmap]s.
    - Exceptions are values of [exn]; an operation returns its outcome
      together with the state it leaves behind.
    - Writing the JSON files ([_save_profile], [_save_session]) mirrors the
      in-memory state and is not represented. *)

From Stdlib Require Import Floats.
From Stdlib Require Import ZArith QArith String Ascii List Lia DecimalString Sorted.
From stdpp Require Import gmap strings list.

Local Open Scope string_scope.
Local Open Scope Z_scope.
Local Open Scope list_scope.

(** ** Python strings (ASCII) *)

Module Py.

Definition is_upper (c : ascii) : bool :=
  let n := nat_of_ascii c in (65 <=? n)%nat && (n <=? 90)%nat.

Definition is_lower (c : ascii) : bool :=
  let n := nat_of_ascii c in (97 <=? n)%nat && (n <=? 122)%nat.

Definition is_cased (c : ascii) : bool := is_upper c || is_lower c.

Definition lower_char (c : ascii) : ascii :=
  if is_upper c then ascii_of_nat (nat_of_ascii c + 32) else c.

Definition upper_char (c : ascii) : ascii :=
  if is_lower c then ascii_of_nat (nat_of_ascii c - 32) else c.

(** [str.lower()] *)
Fixpoint lower (s : string) : string :=
  match s with
  | EmptyString => EmptyString
  | String c s' => String (lower_char c) (lower s')
  end.

(** [str.title()]: a cased character is upper-cased when it follows an
    uncased one and lower-cased otherwise. *)
Fixpoint title_from (prev_cased : bool) (s : string) : string :=
  match s with
  | EmptyString => EmptyString
  | String c s' =>
      if is_cased c
      then String (if prev_cased then lower_char c else upper_char c)
                  (title_from true s')
      else String c (title_from false s')
  end.

Definition title (s : string) : string := title_from false s.

(** [str.replace(old, new)] for a non-empty [old]: leftmost
    non-overlapping occurrences.  [skip] counts the characters of a
    matched occurrence that are still to be dropped. *)
Fixpoint replace_from (old new : string) (skip : nat) (s : string) : string :=
  match s with
  | EmptyString => EmptyString
  | String c s' =>
      match skip with
      | S k => replace_from old new k s'
      | O =>
          if String.prefix old s
          then new +:+ replace_from old new (String.length old - 1) s'
          else String c (replace_from old new 0 s')
      end
  end.

Definition replace (old new s : string) : string := replace_from old new 0 s.

Definition is_space (c : ascii) : bool :=
  let n := nat_of_ascii c in
  ((9 <=? n)%nat && (n <=? 13)%nat) || ((28 <=? n)%nat && (n <=? 32)%nat).

Fixpoint lstrip (s : string) : string :=
  match s with
  | EmptyString => EmptyString
  | String c s' => if is_space c then lstrip s' else s
  end.

Fixpoint rstrip (s : string) : string :=
  match s with
  | EmptyString => EmptyString
  | String c s' =>
      match rstrip s' with
      | EmptyString => if is_space c then EmptyString else String c EmptyString
      | r => String c r
      end
  end.

(** [str.strip()] *)
Definition strip (s : string) : string := rstrip (lstrip s).

(** [x >= y] and [x < y] on floats. *)
Definition ge (x y : Q) : bool := Qle_bool y x.
Definition lt (x y : Q) : bool := negb (Qle_bool y x).

(** [float(n)] for an integer; exact up to [2^53] in absolute value, which
    every list length and counter of the program is. *)
Definition float_of_int (n : Z) : float :=
  if n <? 0 then PrimFloat.opp (PrimFloat.of_uint63 (Uint63.of_Z (- n)))
  else PrimFloat.of_uint63 (Uint63.of_Z n).

(** [a / b] on two integers (true division, [b] not zero): the double
    nearest to the quotient. *)
Definition true_div (a b : Z) : float :=
  PrimFloat.div (float_of_int a) (float_of_int b).

(** The double nearest to a rational. *)
Definition nearest_float (x : Q) : float := true_div (Qnum x) (Z.pos (Qden x)).

(** The exact value of a finite double. *)
Definition float_value (x : float) : Q :=
  match Prim2SF x with
  | S754_finite s m e =>
      let v := (inject_Z (Z.pos m) * 2 ^ e)%Q in
      if s then (- v)%Q else v
  | _ => 0%Q
  end.

(** [round(x, ndigits)] for [ndigits >= 0], on the exact value of the
    float [x]: the nearest multiple of [10^-ndigits], ties to the even
    multiple.  Python returns the double nearest to that decimal. *)
Definition round (x : Q) (ndigits : Z) : Q :=
  let s := 10 ^ ndigits in
  let n := Qnum x * s in
  let d := Z.pos (Qden x) in
  let q := n / d in
  let r := n mod d in
  let m := match Z.compare (2 * r) d with
           | Lt => q
           | Gt => q + 1
           | Eq => if Z.even q then q else q + 1
           end in
  (inject_Z m / inject_Z s)%Q.

(** [str(n)] for an integer. *)
Definition str (n : Z) : string := NilZero.string_of_int (Z.to_int n).

(** [f"{x:.0f}"]: the exact value [x] of the float rounded to an integer
    (ties to even), in decimal. *)
Definition format_0f (x : Q) : string :=
  str (Qnum (Qred (round x 0))).

(** [sep.join(l)] *)
Fixpoint join (sep : string) (l : list string) : string :=
  match l with
  | [] => ""
  | [x] => x
  | x :: l' => x +:+ sep +:+ join sep l'
  end.

(** [list.sort(key=...)] is a stable sort.  [before x y] tells whether an
    element [x] that precedes [y] in the input stays in front of it:
    [key x <= key y], or [key x >= key y] under [reverse=True]. *)
Section Sort.
Context {A : Type} (before : A -> A -> bool).

Fixpoint insert_sorted (x : A) (l : list A) : list A :=
  match l with
  | [] => [x]
  | y :: l' => if before x y then x :: l else y :: insert_sorted x l'
  end.

Fixpoint sort (l : list A) : list A :=
  match l with
  | [] => []
  | x :: l' => insert_sorted x (sort l')
  end.
End Sort.

(** [l[:n]] for [n >= 0] *)
Definition take {A : Type} (n : Z) (l : list A) : list A := firstn (Z.to_nat n) l.

(** [l[-n:]] for [n > 0] *)
Definition last_n {A : Type} (n : Z) (l : list A) : list A :=
  skipn (length l - Z.to_nat n) l.

Definition len {A : Type} (l : list A) : Z := Z.of_nat (length l).

(** The position designated by [l[i]]: negative indices count from the
    end; [None] is an [IndexError]. *)
Definition index {A : Type} (l : list A) (i : Z) : option nat :=
  if (0 <=? i) && (i <? len l) then Some (Z.to_nat i)
  else if (i <? 0) && (- len l <=? i) then Some (Z.to_nat (i + len l))
  else None.

(** [list(set(l))]: the distinct elements, in an unspecified order. *)
Definition list_set (l : list string) : list string :=
  elements (list_to_set l : gset string).

End Py.

(** The synthetic skill id of a topic:
    [f"topic_{topic.lower().replace(' ', '_')}"]. *)
Definition topic_skill_id (topic : string) : string :=
  "topic_" +:+ Py.replace " " "_" (Py.lower topic).

(** ** Exceptions and outcomes *)

Inductive exn : Type :=
| ProfileNotFound (learner_id : string)   (* ValueError("Profile not found: ...") *)
| SessionNotFound (session_id : string)   (* ValueError("Session not found: ...") *)
| QuestionIndexOutOfRange (index : Z)     (* ValueError("Question index ... out of range") *)
| IndexError                              (* list index out of range *)
| ZeroDivisionError.

Inductive outcome (A : Type) : Type :=
| Returns (a : A)
| Raises (e : exn).
Arguments Returns {A} a.
Arguments Raises {A} e.

(** ** Insertion-ordered dictionaries *)

Module Dict.
Section Dict.
Context {V : Type}.

Fixpoint get (k : string) (d : list (string * V)) : option V :=
match d with
| [] => None
| (k', v) :: d' => if decide (k = k') then Some v else get k d'
end.

(** [d[k] = v]: an existing key keeps its position, a new key goes last. *)
Fixpoint set (k : string) (v : V) (d : list (string * V)) : list (string * V) :=
match d with
| [] => [(k, v)]
| (k', v') :: d' =>
    if decide (k = k') then (k, v) :: d' else (k', v') :: set k v d'
end.

Definition keys (d : list (string * V)) : list string := map fst d.

Definition values (d : list (string * V)) : list V := map snd d.

Definition mem (k : string) (d : list (string * V)) : bool :=
match get k d with Some _ => true | None => false end.

End Dict.
End Dict.

Abbreviation dict V := (list (string * V)).

(** ** learner_profile.py: records *)

Module QuestionAttempt.
Record t : Type := mk {
  question_id : string;
  skill_ids : list string;
  topic : string;
  difficulty : string;
  question_type : string;
  correct : bool;
  timestamp : Z;
  time_spent_seconds : option Z;
  exam_session_id : option string
}.
End QuestionAttempt.

Module SkillPerformance.
Record t : Type := mk {
  skill_id : string;
  total_attempts : Z;
  correct_attempts : Z;
  accuracy : Q;
  last_attempted : Z;
  proficiency_level : string
}.
End SkillPerformance.

Module TopicPerformance.
Record t : Type := mk {
  topic : string;
  total_attempts : Z;
  correct_attempts : Z;
  accuracy : Q;
  last_attempted : Z
}.
End TopicPerformance.

Module ExamRecord.
Record t : Type := mk {
  exam_id : string;
  mode : string;
  total_questions : Z;
  correct_answers : Z;
  score : float;
  duration_minutes : Q;
  completed_at : Z;
  topics_tested : list string;
  skills_tested : list string
}.
End ExamRecord.

Module LearnerProfile.
Record t : Type := mk {
  learner_id : string;
  name : string;
  role : string;
  attempts : list QuestionAttempt.t;
  skill_performance : dict SkillPerformance.t;
  topic_performance : dict TopicPerformance.t;
  exam_history : list ExamRecord.t;
  created_at : Z;
  updated_at : Z
}.

Definition with_attempts (v : list QuestionAttempt.t) (p : t) : t :=
  mk (learner_id p) (name p) (role p) v (skill_performance p)
     (topic_performance p) (exam_history p) (created_at p) (updated_at p).

Definition with_skill_performance (v : dict SkillPerformance.t) (p : t) : t :=
  mk (learner_id p) (name p) (role p) (attempts p) v
     (topic_performance p) (exam_history p) (created_at p) (updated_at p).

Definition with_topic_performance (v : dict TopicPerformance.t) (p : t) : t :=
  mk (learner_id p) (name p) (role p) (attempts p) (skill_performance p)
     v (exam_history p) (created_at p) (updated_at p).

Definition with_exam_history (v : list ExamRecord.t) (p : t) : t :=
  mk (learner_id p) (name p) (role p) (attempts p) (skill_performance p)
     (topic_performance p) v (created_at p) (updated_at p).

Definition with_updated_at (v : Z) (p : t) : t :=
  mk (learner_id p) (name p) (role p) (attempts p) (skill_performance p)
     (topic_performance p) (exam_history p) (created_at p) v.
End LearnerProfile.

(** ** learner_profile.py: LearnerProfileManager *)

Module LearnerProfileManager.

Record t : Type := mk { profiles : gmap string LearnerProfile.t }.

(** [_calculate_proficiency(accuracy, attempts)] *)
Definition _calculate_proficiency (accuracy : Q) (attempts : Z) : string :=
  if attempts <? 2 then "novice"
  else if attempts <? 4 then
    (if Py.ge accuracy 0.5%Q then "beginner" else "novice")
  else if attempts <? 8 then
    (if Py.ge accuracy 0.8%Q then "advanced"
     else if Py.ge accuracy 0.6%Q then "intermediate"
     else "beginner")
  else
    (if Py.ge accuracy 0.85%Q then "expert"
     else if Py.ge accuracy 0.75%Q then "advanced"
     else if Py.ge accuracy 0.6%Q then "intermediate"
     else "beginner").

(** [create_profile]: an existing id returns the stored profile. *)
Definition create_profile (learner_id name role : string) (now : Z) (m : t)
  : LearnerProfile.t * t :=
  match profiles m !! learner_id with
  | Some p => (p, m)
  | None =>
      let p := LearnerProfile.mk learner_id name role [] [] [] [] now now in
      (p, mk (<[learner_id := p]> (profiles m)))
  end.

Definition get_profile (learner_id : string) (m : t) : option LearnerProfile.t :=
  profiles m !! learner_id.

(** One iteration of [for skill_id in attempt.skill_ids] on the skill
    dictionary.  The counters are written before the division, so a
    [ZeroDivisionError] leaves them updated. *)
Definition record_skill (attempt : QuestionAttempt.t) (skill_id : string)
    (sp : dict SkillPerformance.t) : outcome unit * dict SkillPerformance.t :=
  let sp1 :=
    if Dict.mem skill_id sp then sp
    else Dict.set skill_id
           (SkillPerformance.mk skill_id 0 0 0 (QuestionAttempt.timestamp attempt) "novice")
           sp in
  match Dict.get skill_id sp1 with
  | None => (Returns tt, sp1)   (* unreachable: the key was just ensured *)
  | Some perf =>
      let total := SkillPerformance.total_attempts perf + 1 in
      let corr :=
        if QuestionAttempt.correct attempt
        then SkillPerformance.correct_attempts perf + 1
        else SkillPerformance.correct_attempts perf in
      if total =? 0 then
        (Raises ZeroDivisionError,
         Dict.set skill_id
           (SkillPerformance.mk (SkillPerformance.skill_id perf) total corr
              (SkillPerformance.accuracy perf) (SkillPerformance.last_attempted perf)
              (SkillPerformance.proficiency_level perf)) sp1)
      else
        let acc := (inject_Z corr / inject_Z total)%Q in
        (Returns tt,
         Dict.set skill_id
           (SkillPerformance.mk (SkillPerformance.skill_id perf) total corr acc
              (QuestionAttempt.timestamp attempt)
              (_calculate_proficiency acc total)) sp1)
  end.

(** The loop over [attempt.skill_ids]; an exception ends it. *)
Fixpoint record_skills (attempt : QuestionAttempt.t) (ids : list string)
    (sp : dict SkillPerformance.t) : outcome unit * dict SkillPerformance.t :=
  match ids with
  | [] => (Returns tt, sp)
  | skill_id :: rest =>
      match record_skill attempt skill_id sp with
      | (Returns _, sp') => record_skills attempt rest sp'
      | (Raises e, sp') => (Raises e, sp')
      end
  end.

(** The topic part of [record_attempt]. *)
Definition record_topic (attempt : QuestionAttempt.t)
    (tp : dict TopicPerformance.t) : outcome unit * dict TopicPerformance.t :=
  let topic := Py.strip (Py.lower (QuestionAttempt.topic attempt)) in
  if decide (topic = "") then (Returns tt, tp)
  else
    let tp1 :=
      if Dict.mem topic tp then tp
      else Dict.set topic
             (TopicPerformance.mk topic 0 0 0 (QuestionAttempt.timestamp attempt)) tp in
    match Dict.get topic tp1 with
    | None => (Returns tt, tp1)
    | Some perf =>
        let total := TopicPerformance.total_attempts perf + 1 in
        let corr :=
          if QuestionAttempt.correct attempt
          then TopicPerformance.correct_attempts perf + 1
          else TopicPerformance.correct_attempts perf in
        if total =? 0 then
          (Raises ZeroDivisionError,
           Dict.set topic
             (TopicPerformance.mk (TopicPerformance.topic perf) total corr
                (TopicPerformance.accuracy perf)
                (TopicPerformance.last_attempted perf)) tp1)
        else
          (Returns tt,
           Dict.set topic
             (TopicPerformance.mk (TopicPerformance.topic perf) total corr
                (inject_Z corr / inject_Z total)%Q
                (QuestionAttempt.timestamp attempt)) tp1)
    end.

(** [record_attempt] on the profile object it mutates. *)
Definition record_attempt_on (attempt : QuestionAttempt.t) (now : Z)
    (p : LearnerProfile.t) : outcome unit * LearnerProfile.t :=
  let p1 := LearnerProfile.with_attempts (LearnerProfile.attempts p ++ [attempt]) p in
  match record_skills attempt (QuestionAttempt.skill_ids attempt)
          (LearnerProfile.skill_performance p1) with
  | (Raises e, sp) => (Raises e, LearnerProfile.with_skill_performance sp p1)
  | (Returns _, sp) =>
      let p2 := LearnerProfile.with_skill_performance sp p1 in
      match record_topic attempt (LearnerProfile.topic_performance p2) with
      | (Raises e, tp) => (Raises e, LearnerProfile.with_topic_performance tp p2)
      | (Returns _, tp) =>
          (Returns tt,
           LearnerProfile.with_updated_at now
             (LearnerProfile.with_topic_performance tp p2))
      end
  end.

(** [record_attempt(learner_id, attempt)] *)
Definition record_attempt (learner_id : string) (attempt : QuestionAttempt.t)
    (now : Z) (m : t) : outcome unit * t :=
  match profiles m !! learner_id with
  | None => (Raises (ProfileNotFound learner_id), m)
  | Some p =>
      let '(r, p') := record_attempt_on attempt now p in
      (r, mk (<[learner_id := p']> (profiles m)))
  end.

(** [record_exam_completion(learner_id, exam_record)] *)
Definition record_exam_completion (learner_id : string) (rec : ExamRecord.t)
    (now : Z) (m : t) : outcome unit * t :=
  match profiles m !! learner_id with
  | None => (Raises (ProfileNotFound learner_id), m)
  | Some p =>
      let p' :=
        LearnerProfile.with_updated_at now
          (LearnerProfile.with_exam_history (LearnerProfile.exam_history p ++ [rec]) p) in
      (Returns tt, mk (<[learner_id := p']> (profiles m)))
  end.

(** The entries of [get_skill_gaps] / [get_strengths]. *)
Record SkillInfo : Type := mkSkillInfo {
  si_skill_id : string;
  si_accuracy : Q;
  si_attempts : Z;
  si_proficiency : string
}.

(** The entries of [get_topic_strengths] / [get_topic_weaknesses]. *)
Record TopicInfo : Type := mkTopicInfo {
  ti_topic : string;
  ti_accuracy : Q;
  ti_attempts : Z;
  ti_correct : Z
}.

Definition skill_info (kv : string * SkillPerformance.t) : SkillInfo :=
  mkSkillInfo (fst kv) (SkillPerformance.accuracy (snd kv))
    (SkillPerformance.total_attempts (snd kv))
    (SkillPerformance.proficiency_level (snd kv)).

Definition topic_info (kv : string * TopicPerformance.t) : TopicInfo :=
  mkTopicInfo (Py.title (fst kv)) (TopicPerformance.accuracy (snd kv))
    (TopicPerformance.total_attempts (snd kv))
    (TopicPerformance.correct_attempts (snd kv)).

Definition is_skill_gap (kv : string * SkillPerformance.t) : bool :=
  Py.lt (SkillPerformance.accuracy (snd kv)) 0.7%Q
  && (1 <=? SkillPerformance.total_attempts (snd kv)).

Definition is_skill_strength (kv : string * SkillPerformance.t) : bool :=
  Py.ge (SkillPerformance.accuracy (snd kv)) 0.7%Q
  && (1 <=? SkillPerformance.total_attempts (snd kv)).

Definition is_topic_weakness (kv : string * TopicPerformance.t) : bool :=
  Py.lt (TopicPerformance.accuracy (snd kv)) 0.7%Q
  && (1 <=? TopicPerformance.total_attempts (snd kv)).

Definition is_topic_strength (kv : string * TopicPerformance.t) : bool :=
  Py.ge (TopicPerformance.accuracy (snd kv)) 0.7%Q
  && (1 <=? TopicPerformance.total_attempts (snd kv)).

(** [get_skill_gaps(learner_id)] *)
Definition get_skill_gaps (learner_id : string) (m : t) : list SkillInfo :=
  match profiles m !! learner_id with
  | None => []
  | Some p =>
      Py.sort (fun x y => Qle_bool (si_accuracy x) (si_accuracy y))
        (map skill_info (List.filter is_skill_gap (LearnerProfile.skill_performance p)))
  end.

(** [get_strengths(learner_id)] *)
Definition get_strengths (learner_id : string) (m : t) : list SkillInfo :=
  match profiles m !! learner_id with
  | None => []
  | Some p =>
      Py.sort (fun x y => Qle_bool (si_accuracy y) (si_accuracy x))
        (map skill_info (List.filter is_skill_strength (LearnerProfile.skill_performance p)))
  end.

(** [get_topic_strengths(learner_id)] *)
Definition get_topic_strengths (learner_id : string) (m : t) : list TopicInfo :=
  match profiles m !! learner_id with
  | None => []
  | Some p =>
      Py.sort (fun x y => Qle_bool (ti_accuracy y) (ti_accuracy x))
        (map topic_info (List.filter is_topic_strength (LearnerProfile.topic_performance p)))
  end.

(** [get_topic_weaknesses(learner_id)] *)
Definition get_topic_weaknesses (learner_id : string) (m : t) : list TopicInfo :=
  match profiles m !! learner_id with
  | None => []
  | Some p =>
      Py.sort (fun x y => Qle_bool (ti_accuracy x) (ti_accuracy y))
        (map topic_info (List.filter is_topic_weakness (LearnerProfile.topic_performance p)))
  end.

(** [get_exam_history(learner_id, limit)]: most recent first. *)
Definition get_exam_history (learner_id : string) (limit : Z) (m : t)
  : list ExamRecord.t :=
  match profiles m !! learner_id with
  | None => []
  | Some p =>
      Py.take limit
        (Py.sort (fun x y => ExamRecord.completed_at y <=? ExamRecord.completed_at x)
           (LearnerProfile.exam_history p))
  end.

(** The dashboard snapshot of [get_all_performance_data]. *)
Record PerformanceData : Type := mkPerformanceData {
  pd_total_questions : Z;
  pd_correct_questions : Z;
  pd_overall_accuracy : Q;
  pd_skills_practiced : Z;
  pd_topics_practiced : Z;
  pd_exams_completed : Z;
  pd_skill_performance : dict SkillPerformance.t;
  pd_topic_performance : dict TopicPerformance.t;
  pd_topic_strengths : list TopicInfo;
  pd_topic_weaknesses : list TopicInfo;
  pd_skill_strengths : list SkillInfo;
  pd_skill_gaps : list SkillInfo;
  pd_recent_exams : list ExamRecord.t
}.

(** [get_all_performance_data(learner_id)]; [None] is the empty dict
    returned for an unknown learner.  [overall_accuracy] is the float
    percentage rounded to one decimal. *)
Definition get_all_performance_data (learner_id : string) (m : t)
  : option PerformanceData :=
  match profiles m !! learner_id with
  | None => None
  | Some p =>
      let total_questions := Py.len (LearnerProfile.attempts p) in
      let correct_questions :=
        Py.len (List.filter QuestionAttempt.correct (LearnerProfile.attempts p)) in
      let overall_accuracy :=
        if 0 <? total_questions
        then (Py.true_div correct_questions total_questions * 100)%float
        else 0%float in
      Some (mkPerformanceData total_questions correct_questions
              (Py.round (Py.float_value overall_accuracy) 1)
              (Py.len (LearnerProfile.skill_performance p))
              (Py.len (LearnerProfile.topic_performance p))
              (Py.len (LearnerProfile.exam_history p))
              (LearnerProfile.skill_performance p)
              (LearnerProfile.topic_performance p)
              (get_topic_strengths learner_id m)
              (get_topic_weaknesses learner_id m)
              (get_strengths learner_id m)
              (get_skill_gaps learner_id m)
              (get_exam_history learner_id 5 m))
  end.

End LearnerProfileManager.

(** ** exam_session.py: records *)

Module ExamQuestion.
Record t : Type := mk {
  question_id : string;
  topic : string;
  difficulty : string;
  question_type : string;
  skill_ids : list string;
  question_data : dict string;
  user_answer : option string;
  correct_answer : string;
  is_correct : option bool;
  time_spent_seconds : option Z;
  timestamp : option Z
}.

(** [q.is_correct is not None] *)
Definition answered (q : t) : bool :=
  match is_correct q with Some _ => true | None => false end.

(** [if q.is_correct] *)
Definition truthy_correct (q : t) : bool :=
  match is_correct q with Some true => true | _ => false end.

(** [q.skill_ids if q.skill_ids else [f"topic_..."]] *)
Definition skill_ids_or_topic (q : t) : list string :=
  match skill_ids q with
  | [] => [topic_skill_id (topic q)]
  | ids => ids
  end.
End ExamQuestion.

Module ExamSession.
Record t : Type := mk {
  session_id : string;
  learner_id : string;
  mode : string;
  total_questions : Z;
  time_limit_minutes : option Z;
  questions : list ExamQuestion.t;
  current_question_index : Z;
  start_time : Z;
  end_time : option Z;
  score : option float;
  status : string
}.

Definition with_questions (v : list ExamQuestion.t) (s : t) : t :=
  mk (session_id s) (learner_id s) (mode s) (total_questions s)
     (time_limit_minutes s) v (current_question_index s) (start_time s)
     (end_time s) (score s) (status s).

Definition completed (now : Z) (sc : float) (s : t) : t :=
  mk (session_id s) (learner_id s) (mode s) (total_questions s)
     (time_limit_minutes s) (questions s) (current_question_index s)
     (start_time s) (Some now) (Some sc) "completed".
End ExamSession.

(** ** exam_session.py: ExamSessionManager *)

Module ExamSessionManager.

(** The manager and the profile store it holds a reference to. *)
Record t : Type := mk {
  sessions : gmap string ExamSession.t;
  learner_manager : LearnerProfileManager.t
}.

(** [create_session]; [stamp] is [now] rendered by
    [strftime('%Y%m%d_%H%M%S')]. *)
Definition create_session (learner_id mode : string) (total_questions : Z)
    (time_limit_minutes : option Z) (now : Z) (stamp : string) (m : t)
  : ExamSession.t * t :=
  let session_id := "exam_" +:+ learner_id +:+ "_" +:+ stamp in
  let session :=
    ExamSession.mk session_id learner_id mode total_questions
      time_limit_minutes [] 0 now None None "in_progress" in
  (session, mk (<[session_id := session]> (sessions m)) (learner_manager m)).

Definition get_session (session_id : string) (m : t) : option ExamSession.t :=
  sessions m !! session_id.

(** [add_question_to_session(...)] *)
Definition add_question_to_session (session_id question_id topic difficulty
    question_type : string) (skill_ids : list string)
    (question_data : dict string) (correct_answer : string) (m : t)
  : outcome unit * t :=
  match sessions m !! session_id with
  | None => (Raises (SessionNotFound session_id), m)
  | Some session =>
      let skill_ids :=
        match skill_ids with
        | [] => [topic_skill_id topic]
        | _ => skill_ids
        end in
      let question :=
        ExamQuestion.mk question_id topic difficulty question_type skill_ids
          question_data None correct_answer None None None in
      (Returns tt,
       mk (<[session_id :=
               ExamSession.with_questions
                 (ExamSession.questions session ++ [question]) session]>
             (sessions m))
          (learner_manager m))
  end.



(** The [QuestionAttempt] that [submit_answer] forwards for an answered
    question. *)
Definition attempt_of (session_id : string) (time_spent_seconds : Z)
    (q : ExamQuestion.t) : QuestionAttempt.t :=
  QuestionAttempt.mk (ExamQuestion.question_id q)
    (ExamQuestion.skill_ids_or_topic q)
    (ExamQuestion.topic q) (ExamQuestion.difficulty q)
    (ExamQuestion.question_type q)
    (match ExamQuestion.is_correct q with Some b => b | None => false end)
    (match ExamQuestion.timestamp q with Some ts => ts | None => 0 end)
    (Some time_spent_seconds) (Some session_id).


(** The dictionary returned by [complete_session]. *)
Record CompleteResult : Type := mkCompleteResult {
  cr_score : float;
  cr_correct : Z;
  cr_total : Z;
  cr_duration_minutes : Q
}.

(** [complete_session(session_id)].  The score is the float
    [correct / total * 100]: the quotient is rounded to a double, and so is
    its product with 100; without questions it is the integer [0], kept
    here as the float of the same value.  An exception of
    [record_exam_completion] is caught and printed. *)
Definition complete_session (session_id : string) (now : Z) (m : t)
  : outcome CompleteResult * t :=
  match sessions m !! session_id with
  | None => (Raises (SessionNotFound session_id), m)
  | Some session =>
      let qs := ExamSession.questions session in
      let total := Py.len qs in
      let correct := Py.len (List.filter ExamQuestion.truthy_correct qs) in
      let score :=
        if 0 <? total then (Py.true_div correct total * 100)%float else 0%float in
      let session' := ExamSession.completed now score session in
      let duration_minutes := (inject_Z (now - ExamSession.start_time session) / 60)%Q in
      let topics_tested := Py.list_set (map ExamQuestion.topic qs) in
      let skills_tested := Py.list_set (concat (map ExamQuestion.skill_ids_or_topic qs)) in
      let exam_record :=
        ExamRecord.mk session_id (ExamSession.mode session) total correct score
          (Py.round duration_minutes 2) now topics_tested skills_tested in
      let '(_, lm') :=
        LearnerProfileManager.record_exam_completion
          (ExamSession.learner_id session) exam_record now (learner_manager m) in
      (Returns (mkCompleteResult score correct total duration_minutes),
       mk (<[session_id := session']> (sessions m)) lm')
  end.

(** [get_adaptive_next_difficulty(session_id)] *)
Definition get_adaptive_next_difficulty (session_id : string) (m : t) : string :=
  match sessions m !! session_id with
  | None => "intermediate"
  | Some session =>
      if Py.len (ExamSession.questions session) <? 3 then "intermediate"
      else
        let recent :=
          Py.last_n 3 (List.filter ExamQuestion.answered (ExamSession.questions session)) in
        match last recent with
        | None => "intermediate"
        | Some q_last =>
            let correct_count := Py.len (List.filter ExamQuestion.truthy_correct recent) in
            let current_diff := ExamQuestion.difficulty q_last in
            if 2 <=? correct_count then
              if decide (current_diff = "beginner") then "intermediate"
              else if decide (current_diff = "intermediate") then "advanced"
              else "advanced"
            else if correct_count <=? 1 then
              if decide (current_diff = "advanced") then "intermediate"
              else if decide (current_diff = "intermediate") then "beginner"
              else "beginner"
            else current_diff
        end
  end.

End ExamSessionManager.

(** ** skills_ontology.py: what the recommendation engine reads *)

Module Skill.
(** [category] is the value of the [SkillCategory] member. *)
Record t : Type := mk {
  id : string;
  name : string;
  category : string
}.
End Skill.

(** ** recommendation_engine.py: RecommendationEngine *)

Module RecommendationEngine.

(** The engine reads the profile store and the ontology's skill table
    ([SkillsOntology.get_skill] is a dictionary lookup). *)
Record t : Type := mk {
  learner_manager : LearnerProfileManager.t;
  skills_ontology : gmap string Skill.t
}.

Record WeakSkill : Type := mkWeakSkill {
  ws_skill_id : string;
  ws_skill_name : string;
  ws_category : string;
  ws_accuracy : Q;
  ws_attempts : Z;
  ws_improvement_needed : Q
}.

Record WeakTopic : Type := mkWeakTopic {
  wt_topic : string;
  wt_accuracy : Q;
  wt_attempts : Z;
  wt_correct : Z;
  wt_improvement_needed : Q;
  wt_priority : string
}.

Definition weak_skill (e : t) (threshold : Q)
    (gap : LearnerProfileManager.SkillInfo) : WeakSkill :=
  let skill_id := LearnerProfileManager.si_skill_id gap in
  let skill := skills_ontology e !! skill_id in
  mkWeakSkill skill_id
    (match skill with
     | Some sk => Skill.name sk
     | None => Py.title (Py.replace "_" " " (Py.replace "skill_" "" skill_id))
     end)
    (match skill with Some sk => Skill.category sk | None => "General" end)
    (LearnerProfileManager.si_accuracy gap)
    (LearnerProfileManager.si_attempts gap)
    (threshold - LearnerProfileManager.si_accuracy gap)%Q.

(** [get_weak_skills(learner_id, threshold)] *)
Definition get_weak_skills (learner_id : string) (threshold : Q) (e : t)
  : list WeakSkill :=
  let gaps := LearnerProfileManager.get_skill_gaps learner_id (learner_manager e) in
  Py.take 5
    (Py.sort (fun x y => Qle_bool (ws_accuracy x) (ws_accuracy y))
       (map (weak_skill e threshold)
          (List.filter
             (fun gap => Py.lt (LearnerProfileManager.si_accuracy gap) threshold)
             gaps))).

Definition weak_topic (threshold : Q)
    (info : LearnerProfileManager.TopicInfo) : WeakTopic :=
  mkWeakTopic (LearnerProfileManager.ti_topic info)
    (LearnerProfileManager.ti_accuracy info)
    (LearnerProfileManager.ti_attempts info)
    (LearnerProfileManager.ti_correct info)
    (threshold - LearnerProfileManager.ti_accuracy info)%Q
    (if Py.lt (LearnerProfileManager.ti_accuracy info) 0.5%Q then "high" else "medium").

(** [get_weak_topics(learner_id, threshold)] *)
Definition get_weak_topics (learner_id : string) (threshold : Q) (e : t)
  : list WeakTopic :=
  let weaknesses :=
    LearnerProfileManager.get_topic_weaknesses learner_id (learner_manager e) in
  Py.take 5
    (Py.sort (fun x y => Qle_bool (wt_accuracy x) (wt_accuracy y))
       (map (weak_topic threshold)
          (List.filter
             (fun info => Py.lt (LearnerProfileManager.ti_accuracy info) threshold)
             weaknesses))).

Record TopicPlan : Type := mkTopicPlan {
  tpl_num_questions : Z;
  tpl_current_accuracy : string
}.

Record SkillPlan : Type := mkSkillPlan {
  spl_skill_name : string;
  spl_num_questions : Z;
  spl_current_accuracy : string
}.

(** The dictionary returned by [generate_focused_exam];
    [recommended_topics] is absent from the comprehensive review. *)
Record FocusedExam : Type := mkFocusedExam {
  fe_focus : string;
  fe_message : string;
  fe_skill_distribution : dict SkillPlan;
  fe_topic_distribution : dict TopicPlan;
  fe_recommended_topics : option (list string)
}.

(** [f"{accuracy*100:.0f}%"] on the stored float. *)
Definition percent (accuracy : Q) : string :=
  Py.format_0f (Py.float_value (Py.nearest_float accuracy * 100)%float) +:+ "%".

(** [generate_focused_exam(learner_id, num_questions)] *)
Definition generate_focused_exam (learner_id : string) (num_questions : Z) (e : t)
  : FocusedExam :=
  let weak_skills := get_weak_skills learner_id 0.7%Q e in
  let weak_topics := get_weak_topics learner_id 0.7%Q e in
  match weak_skills, weak_topics with
  | [], [] =>
      mkFocusedExam "comprehensive_review"
        "Great job! No major gaps identified. This will be a comprehensive review."
        [] [] None
  | _, _ =>
      let total_weak := Py.len weak_topics + Py.len weak_skills in
      let questions_per_area := Z.max 2 (num_questions / Z.max total_weak 1) in
      let topic_distribution :=
        fold_left
          (fun d topic_info =>
             Dict.set (wt_topic topic_info)
               (mkTopicPlan questions_per_area (percent (wt_accuracy topic_info))) d)
          (Py.take 3 weak_topics) [] in
      let skill_distribution :=
        fold_left
          (fun d skill_info =>
             Dict.set (ws_skill_id skill_info)
               (mkSkillPlan (ws_skill_name skill_info) questions_per_area
                  (percent (ws_accuracy skill_info))) d)
          (Py.take 2 weak_skills) [] in
      let focus_areas :=
        (map wt_topic (Py.take 3 weak_topics)
         ++ map ws_skill_name (Py.take 2 weak_skills))%list in
      mkFocusedExam "gap_remediation"
        ("This exam focuses on your " +:+ Py.str (Py.len focus_areas)
         +:+ " weakest areas: " +:+ Py.join ", " focus_areas)
        skill_distribution topic_distribution (Some focus_areas)
  end.

Record Milestone : Type := mkMilestone {
  ms_name : string;
  ms_check : bool;
  ms_progress : string;
  ms_description : string
}.

(** The milestone table built by [get_next_milestone]. *)
Definition milestones (total_questions topics_practiced exams_completed : Z)
    (overall_accuracy : Q) : list Milestone :=
  [ mkMilestone "Beginner" (5 <=? total_questions)
      (Py.str (Z.min total_questions 5) +:+ "/5 questions")
      "Answer 5 questions";
    mkMilestone "Explorer" (3 <=? topics_practiced)
      (Py.str (Z.min topics_practiced 3) +:+ "/3 topics")
      "Practice 3 different topics";
    mkMilestone "Committed" (3 <=? exams_completed)
      (Py.str (Z.min exams_completed 3) +:+ "/3 exams")
      "Complete 3 exams";
    mkMilestone "Proficient"
      ((25 <=? total_questions) && Py.ge overall_accuracy 70)
      (Py.str total_questions +:+ "/25 questions, "
       +:+ Py.format_0f overall_accuracy +:+ "%/70% accuracy")
      "Answer 25 questions with 70%+ accuracy";
    mkMilestone "Expert"
      ((50 <=? total_questions) && Py.ge overall_accuracy 85)
      (Py.str total_questions +:+ "/50 questions, "
       +:+ Py.format_0f overall_accuracy +:+ "%/85% accuracy")
      "Answer 50 questions with 85%+ accuracy";
    mkMilestone "Master"
      ((100 <=? total_questions) && Py.ge overall_accuracy 90)
      (Py.str total_questions +:+ "/100 questions, "
       +:+ Py.format_0f overall_accuracy +:+ "%/90% accuracy")
      "Answer 100 questions with 90%+ accuracy" ].

(** The [for i, milestone in enumerate(milestones)] loop, from the
    milestones still to visit and the two loop variables; [head rest] is
    [milestones[i + 1]] when [i + 1 < len(milestones)] and [None]
    otherwise. *)
Fixpoint walk (ms : list Milestone) (current_milestone : string)
    (next_milestone : option Milestone) : string * option Milestone :=
  match ms with
  | [] => (current_milestone, next_milestone)
  | milestone :: rest =>
      if ms_check milestone
      then walk rest (ms_name milestone) (head rest)
      else (current_milestone, Some milestone)
  end.

Record MilestoneResult : Type := mkMilestoneResult {
  mr_current : string;
  mr_next : string;
  mr_progress : string;
  mr_description : string
}.

(** [get_next_milestone(learner_id)] *)
Definition get_next_milestone (learner_id : string) (e : t) : MilestoneResult :=
  match LearnerProfileManager.get_all_performance_data learner_id (learner_manager e) with
  | None =>
      mkMilestoneResult "Novice" "Beginner" "0/3" "Practice 3 different topics"
  | Some perf_data =>
      let ms :=
        milestones (LearnerProfileManager.pd_total_questions perf_data)
          (LearnerProfileManager.pd_topics_practiced perf_data)
          (LearnerProfileManager.pd_exams_completed perf_data)
          (LearnerProfileManager.pd_overall_accuracy perf_data) in
      match walk ms "Novice" (head ms) with
      | (current_milestone, Some next_milestone) =>
          mkMilestoneResult current_milestone (ms_name next_milestone)
            (ms_progress next_milestone) (ms_description next_milestone)
      | (current_milestone, None) =>
          mkMilestoneResult current_milestone "Master" "Complete"
            "You've mastered all milestones!"
      end
  end.

End RecommendationEngine.


(** ** Sample data *)

Module Sample.

(** A question of the sepsis topic with the given difficulty and
    correctness mark. *)
Definition question (id difficulty : string) (is_correct : option bool)
  : ExamQuestion.t :=
  ExamQuestion.mk id "Sepsis" difficulty "mcq" ["skill_sepsis_recognition"] []
    (match is_correct with Some true => Some "B" | Some false => Some "C" | None => None end)
    "B" is_correct None None.

Definition session (qs : list ExamQuestion.t) : ExamSession.t :=
  ExamSession.mk "exam_ann_1" "ann" "adaptive" 10 None qs 0 1000 None None "in_progress".

Definition ann : LearnerProfile.t :=
  LearnerProfile.mk "ann" "Ann" "ICU Nurse" [] [] [] [] 0 0.

(** The store after [create_profile("ann", "Ann", "ICU Nurse")]. *)
Definition store : LearnerProfileManager.t :=
  (LearnerProfileManager.create_profile "ann" "Ann" "ICU Nurse" 0
     (LearnerProfileManager.mk ∅)).2.

(** A learner with four attempts on ventilator setup, three of them
    correct. *)
Definition bea : LearnerProfile.t :=
  LearnerProfile.mk "bea" "Bea" "ICU Nurse" []
    [("skill_vent_setup",
      SkillPerformance.mk "skill_vent_setup" 4 3 (3 # 4) 900 "intermediate")]
    [] [] 0 900.



(** A learner with 28 answered questions, 21 of them correct, on four
    topics, and three completed exams. *)
Definition dan : LearnerProfile.t :=
  LearnerProfile.mk "dan" "Dan" "Registered Nurse"
    (repeat (QuestionAttempt.mk "q" ["skill_vent_setup"] "ARDS" "intermediate" "mcq"
               true 100 None None) 21
     ++ repeat (QuestionAttempt.mk "q" ["skill_vent_setup"] "ARDS" "intermediate" "mcq"
                  false 100 None None) 7)
    [("skill_vent_setup", SkillPerformance.mk "skill_vent_setup" 28 21 (21 # 28) 100 "advanced")]
    [("ards", TopicPerformance.mk "ards" 7 6 (6 # 7) 100);
     ("sepsis", TopicPerformance.mk "sepsis" 7 5 (5 # 7) 100);
     ("shock", TopicPerformance.mk "shock" 7 5 (5 # 7) 100);
     ("ventilation", TopicPerformance.mk "ventilation" 7 5 (5 # 7) 100)]
    (repeat (ExamRecord.mk "exam_dan_1" "practice" 8 6 75%float 12 100 ["ARDS"]
               ["skill_vent_setup"]) 3)
    0 100.

Definition dan_engine : RecommendationEngine.t :=
  RecommendationEngine.mk (LearnerProfileManager.mk {[ "dan" := dan ]}) ∅.

(** A learner with 203 answered questions, 142 of them correct (69.95 %),
    on three topics, and three completed exams. *)
Definition fay : LearnerProfile.t :=
  LearnerProfile.mk "fay" "Fay" "Registered Nurse"
    (repeat (QuestionAttempt.mk "q" ["skill_vent_setup"] "ARDS" "intermediate" "mcq"
               true 100 None None) 142
     ++ repeat (QuestionAttempt.mk "q" ["skill_vent_setup"] "ARDS" "intermediate" "mcq"
                  false 100 None None) 61)
    [("skill_vent_setup",
      SkillPerformance.mk "skill_vent_setup" 203 142 (142 # 203) 100 "intermediate")]
    [("ards", TopicPerformance.mk "ards" 68 48 (48 # 68) 100);
     ("sepsis", TopicPerformance.mk "sepsis" 68 47 (47 # 68) 100);
     ("shock", TopicPerformance.mk "shock" 67 47 (47 # 67) 100)]
    (repeat (ExamRecord.mk "exam_fay_1" "practice" 8 6 75%float 12 100 ["ARDS"]
               ["skill_vent_setup"]) 3)
    0 100.

Definition fay_engine : RecommendationEngine.t :=
  RecommendationEngine.mk (LearnerProfileManager.mk {[ "fay" := fay ]}) ∅.

(** A learner with four weak topics and no tracked skill. *)
Definition eve : LearnerProfile.t :=
  LearnerProfile.mk "eve" "Eve" "Registered Nurse" [] []
    [("ards", TopicPerformance.mk "ards" 4 1 (1 # 4) 100);
     ("sepsis", TopicPerformance.mk "sepsis" 4 2 (2 # 4) 100);
     ("shock", TopicPerformance.mk "shock" 5 1 (1 # 5) 100);
     ("ventilation", TopicPerformance.mk "ventilation" 5 3 (3 # 5) 100)]
    [] 0 100.

Definition eve_engine : RecommendationEngine.t :=
  RecommendationEngine.mk (LearnerProfileManager.mk {[ "eve" := eve ]}) ∅.

Definition bea_store : LearnerProfileManager.t :=
  LearnerProfileManager.mk {[ "bea" := bea ]}.

Definition attempt (skill_ids : list string) (correct : bool) : QuestionAttempt.t :=
  QuestionAttempt.mk "q1" skill_ids "Sepsis Care" "intermediate" "mcq" correct 1500
    (Some 30) None.

Definition manager (qs : list ExamQuestion.t) : ExamSessionManager.t :=
  ExamSessionManager.mk {[ "exam_ann_1" := session qs ]} store.

(** An exam of [correct] questions answered correctly followed by [wrong]
    questions answered wrongly. *)
Definition answered (correct wrong : nat) : list ExamQuestion.t :=
  repeat (question "q" "intermediate" (Some true)) correct
  ++ repeat (question "q" "intermediate" (Some false)) wrong.

End Sample.

(** ** Vocabulary of the specification *)

Module Spec.

(** The proficiency table of the specification, row by row: fewer than 2
    attempts; 2 to 3; 4 to 7; 8 and more. *)
Definition proficiency_table (accuracy : Q) (attempts : Z) : string :=
  if attempts <? 2 then "novice"
  else if (2 <=? attempts) && (attempts <=? 3) then
    (if Qle_bool 0.5 accuracy then "beginner" else "novice")
  else if (4 <=? attempts) && (attempts <=? 7) then
    (if Qle_bool 0.8 accuracy then "advanced"
     else if Qle_bool 0.6 accuracy then "intermediate"
     else "beginner")
  else
    (if Qle_bool 0.85 accuracy then "expert"
     else if Qle_bool 0.75 accuracy then "advanced"
     else if Qle_bool 0.6 accuracy then "intermediate"
     else "beginner").

Definition skill_nonneg (kv : string * SkillPerformance.t) : bool :=
  0 <=? SkillPerformance.total_attempts (snd kv).

Definition topic_nonneg (kv : string * TopicPerformance.t) : bool :=
  0 <=? TopicPerformance.total_attempts (snd kv).

(** All skill and topic counters of a profile are non-negative. *)
Definition nonneg_counters (p : LearnerProfile.t) : bool :=
  forallb skill_nonneg (LearnerProfile.skill_performance p)
  && forallb topic_nonneg (LearnerProfile.topic_performance p).

(** How often [s] occurs in a list of skill ids. *)
Definition count (s : string) (ids : list string) : Z :=
  Py.len (List.filter (fun x => bool_decide (x = s)) ids).

(** The counters of a possibly missing entry. *)
Definition total_of (o : option SkillPerformance.t) : Z :=
  match o with Some perf => SkillPerformance.total_attempts perf | None => 0 end.

Definition correct_of (o : option SkillPerformance.t) : Z :=
  match o with Some perf => SkillPerformance.correct_attempts perf | None => 0 end.

(** How often skill [s] is listed by the attempts of a history. *)
Definition occurrences (s : string) (history : list QuestionAttempt.t) : Z :=
  Py.len (List.filter (fun x => bool_decide (x = s))
            (concat (map QuestionAttempt.skill_ids history))).

(** How many attempts of a history are tagged with skill [s]. *)
Definition tagging (s : string) (history : list QuestionAttempt.t) : Z :=
  Py.len (List.filter (fun a => bool_decide (s ∈ QuestionAttempt.skill_ids a)) history).

(** The correct attempts of a history. *)
Definition correct_only (history : list QuestionAttempt.t) : list QuestionAttempt.t :=
  List.filter QuestionAttempt.correct history.

(** The entry of skill [s] agrees with the attempt history of the profile. *)
Definition tracked_consistently (p : LearnerProfile.t) (s : string) : Prop :=
  match Dict.get s (LearnerProfile.skill_performance p) with
  | Some perf =>
      SkillPerformance.total_attempts perf = occurrences s (LearnerProfile.attempts p) /\
      SkillPerformance.correct_attempts perf
        = occurrences s (correct_only (LearnerProfile.attempts p)) /\
      SkillPerformance.accuracy perf
        = (inject_Z (SkillPerformance.correct_attempts perf)
           / inject_Z (SkillPerformance.total_attempts perf))%Q /\
      SkillPerformance.proficiency_level perf
        = proficiency_table (SkillPerformance.accuracy perf)
            (SkillPerformance.total_attempts perf) /\
      1 <= SkillPerformance.total_attempts perf
  | None => occurrences s (LearnerProfile.attempts p) = 0
  end.

(** The invariant of stored profiles. *)
Definition well_formed (p : LearnerProfile.t) : Prop :=
  nonneg_counters p = true /\
  NoDup (Dict.keys (LearnerProfile.skill_performance p)) /\
  NoDup (Dict.keys (LearnerProfile.topic_performance p)) /\
  forall s, tracked_consistently p s.

(** The milestone ladder of the specification, in order, each name with
    whether its gate is met: 5 questions; 3 topics; 3 exams; 25 questions at
    70%; 50 questions at 85%; 100 questions at 90%. *)
Definition ladder (total_questions topics_practiced exams_completed : Z)
    (overall_accuracy : Q) : list (string * bool) :=
  [("Beginner", 5 <=? total_questions);
   ("Explorer", 3 <=? topics_practiced);
   ("Committed", 3 <=? exams_completed);
   ("Proficient", (25 <=? total_questions) && Qle_bool 70 overall_accuracy);
   ("Expert", (50 <=? total_questions) && Qle_bool 85 overall_accuracy);
   ("Master", (100 <=? total_questions) && Qle_bool 90 overall_accuracy)].

(** Stores reachable from the empty one by the operations of the profile
    store. *)
Inductive reachable : LearnerProfileManager.t -> Prop :=
| reachable_empty :
    reachable (LearnerProfileManager.mk ∅)
| reachable_create m learner_id name role now :
    reachable m ->
    reachable (LearnerProfileManager.create_profile learner_id name role now m).2
| reachable_attempt m learner_id attempt now :
    reachable m ->
    reachable (LearnerProfileManager.record_attempt learner_id attempt now m).2
| reachable_exam m learner_id exam_record now :
    reachable m ->
    reachable (LearnerProfileManager.record_exam_completion learner_id exam_record now m).2.

End Spec.

(** * Properties *)

(** ** The Python helpers on sample inputs *)

Example topic_skill_id_example :
  topic_skill_id "Sepsis Bundle Care" = "topic_sepsis_bundle_care".
Proof. reflexivity. Qed.

Example title_example : Py.title "acute kidney-injury 2b" = "Acute Kidney-Injury 2B".
Proof. reflexivity. Qed.

Example replace_example : Py.title (Py.replace "_" " " (Py.replace "skill_" "" "skill_vent_setup")) = "Vent Setup".
Proof. reflexivity. Qed.

Example strip_example : Py.strip "  a b  " = "a b".
Proof. reflexivity. Qed.

Example round_example : (Py.round ((2 # 3) * 100) 1 == 667 # 10)%Q.
Proof. reflexivity. Qed.

(** ** Adaptive difficulty *)

Section Adaptive.

Import ExamSessionManager.

Lemma last_n_3_app {A : Type} (older : list A) (a b c : A) :
  Py.last_n 3 (older ++ [a; b; c]) = [a; b; c].
Proof.
  unfold Py.last_n. change (Z.to_nat 3) with 3%nat.
  replace (length (older ++ [a; b; c]) - 3)%nat with (length older)
    by (rewrite length_app; simpl; lia).
  apply drop_app_length.
Qed.

Lemma last_n_short {A : Type} (n : Z) (l : list A) :
  (length l <= Z.to_nat n)%nat -> Py.last_n n l = l.
Proof.
  intros H. unfold Py.last_n.
  replace (length l - Z.to_nat n)%nat with 0%nat by lia. reflexivity.
Qed.

(** C1.  When the answered questions of a session, in list order, end with
    [q1; q2; q3], the next difficulty is decided by these three: with two or
    more of them correct it is one tier above the tier of [q3]
    (beginner, intermediate, advanced; advanced stays), with at most one
    correct it is one tier below (beginner stays). *)
Theorem get_adaptive_next_difficulty_last_three
    (m : ExamSessionManager.t) (session_id : string) (session : ExamSession.t)
    (older : list ExamQuestion.t) (q1 q2 q3 : ExamQuestion.t) :
  sessions m !! session_id = Some session ->
  List.filter ExamQuestion.answered (ExamSession.questions session)
    = older ++ [q1; q2; q3] ->
  let correct_count := length (List.filter ExamQuestion.truthy_correct [q1; q2; q3]) in
  let tier := ExamQuestion.difficulty q3 in
  let next := get_adaptive_next_difficulty session_id m in
  ((2 <= correct_count)%nat ->
     (tier = "beginner" -> next = "intermediate") /\
     (tier = "intermediate" -> next = "advanced") /\
     (tier = "advanced" -> next = "advanced")) /\
  ((correct_count <= 1)%nat ->
     (tier = "advanced" -> next = "intermediate") /\
     (tier = "intermediate" -> next = "beginner") /\
     (tier = "beginner" -> next = "beginner")).
Proof.
  intros Hs Hf correct_count tier next.
  assert (Hlen : ~ (Py.len (ExamSession.questions session) < 3)).
  { pose proof (filter_length_le ExamQuestion.answered (ExamSession.questions session)) as Hle.
    rewrite Hf, length_app in Hle. simpl in Hle. unfold Py.len. lia. }
  subst next. unfold get_adaptive_next_difficulty.
  rewrite Hs. destruct (Z.ltb_spec (Py.len (ExamSession.questions session)) 3) as [Hlt|_];
    [contradiction|].
  rewrite Hf, last_n_3_app. cbn [last].
  fold tier. unfold Py.len. fold correct_count.
  split; intros Hc.
  - destruct (Z.leb_spec 2 (Z.of_nat correct_count)) as [_|Hn]; [|lia].
    repeat split; intros Ht; rewrite Ht; reflexivity.
  - destruct (Z.leb_spec 2 (Z.of_nat correct_count)) as [Hn|_]; [lia|].
    destruct (Z.leb_spec (Z.of_nat correct_count) 1) as [_|Hn]; [|lia].
    repeat split; intros Ht; rewrite Ht; reflexivity.
Qed.

(** The spec's first example: correct, correct, incorrect at intermediate
    gives advanced. *)
Lemma get_adaptive_next_difficulty_last_three_witness :
  get_adaptive_next_difficulty "exam_ann_1"
    (Sample.manager
       [Sample.question "q1" "beginner" (Some true);
        Sample.question "q2" "intermediate" (Some true);
        Sample.question "q3" "intermediate" (Some false);
        Sample.question "q4" "advanced" None])
  = "advanced".
Proof.
  destruct (get_adaptive_next_difficulty_last_three
              (Sample.manager
                 [Sample.question "q1" "beginner" (Some true);
                  Sample.question "q2" "intermediate" (Some true);
                  Sample.question "q3" "intermediate" (Some false);
                  Sample.question "q4" "advanced" None])
              "exam_ann_1"
              (Sample.session
                 [Sample.question "q1" "beginner" (Some true);
                  Sample.question "q2" "intermediate" (Some true);
                  Sample.question "q3" "intermediate" (Some false);
                  Sample.question "q4" "advanced" None])
              []
              (Sample.question "q1" "beginner" (Some true))
              (Sample.question "q2" "intermediate" (Some true))
              (Sample.question "q3" "intermediate" (Some false)))
    as [Hup _]; [reflexivity | reflexivity |].
  destruct Hup as (_ & Hmid & _); [simpl; lia |].
  apply Hmid. reflexivity.
Defined.

(** The spec's second example: incorrect, incorrect, correct at advanced
    gives intermediate. *)
Example get_adaptive_next_difficulty_struggling :
  get_adaptive_next_difficulty "exam_ann_1"
    (Sample.manager
       [Sample.question "q1" "advanced" (Some false);
        Sample.question "q2" "advanced" (Some false);
        Sample.question "q3" "advanced" (Some true)])
  = "intermediate".
Proof. reflexivity. Qed.

(** C2, as stated, fails: three questions added, one of them answered
    (incorrectly, at intermediate) gives beginner. *)
Lemma get_adaptive_next_difficulty_one_answered :
  let qs := [Sample.question "q1" "intermediate" (Some false);
             Sample.question "q2" "intermediate" None;
             Sample.question "q3" "intermediate" None] in
  sessions (Sample.manager qs) !! "exam_ann_1" = Some (Sample.session qs) /\
  (length (List.filter ExamQuestion.answered (ExamSession.questions (Sample.session qs))) < 3)%nat /\
  get_adaptive_next_difficulty "exam_ann_1" (Sample.manager qs) = "beginner" /\
  get_adaptive_next_difficulty "exam_ann_1" (Sample.manager qs) <> "intermediate".
Proof.
  cbv zeta. repeat split; [simpl; lia | discriminate].
Qed.

(** C2, amended.  With fewer than three answered questions the result is
    "intermediate" when fewer than three questions were added or none is
    answered; once three or more questions were added, one or two answered
    questions are judged like a full window: two correct move one tier up
    from the tier of the last answered question, otherwise one tier down. *)
Theorem get_adaptive_next_difficulty_few_answered
    (m : ExamSessionManager.t) (session_id : string) (session : ExamSession.t) :
  sessions m !! session_id = Some session ->
  let answered := List.filter ExamQuestion.answered (ExamSession.questions session) in
  (length answered < 3)%nat ->
  let next := get_adaptive_next_difficulty session_id m in
  ((length (ExamSession.questions session) < 3)%nat \/ answered = [] ->
     next = "intermediate") /\
  ((3 <= length (ExamSession.questions session))%nat ->
   forall earlier q_last, answered = earlier ++ [q_last] ->
     let correct_count := length (List.filter ExamQuestion.truthy_correct answered) in
     let tier := ExamQuestion.difficulty q_last in
     ((2 <= correct_count)%nat ->
        (tier = "beginner" -> next = "intermediate") /\
        (tier = "intermediate" -> next = "advanced") /\
        (tier = "advanced" -> next = "advanced")) /\
     ((correct_count <= 1)%nat ->
        (tier = "advanced" -> next = "intermediate") /\
        (tier = "intermediate" -> next = "beginner") /\
        (tier = "beginner" -> next = "beginner"))).
Proof.
  intros Hs answered Hfew next. subst next.
  unfold get_adaptive_next_difficulty. rewrite Hs.
  fold answered. rewrite (last_n_short 3 answered) by (change (Z.to_nat 3) with 3%nat; lia).
  unfold Py.len.
  destruct (Z.ltb_spec (Z.of_nat (length (ExamSession.questions session))) 3) as [Hlt|Hge];
    split.
  - reflexivity.
  - intros Hn. lia.
  - intros [Hn|Hnil]; [lia|]. rewrite Hnil. reflexivity.
  - intros _ earlier q_last He.
    replace (last answered) with (Some q_last) by (rewrite He, last_snoc; reflexivity).
    set (correct_count := length (List.filter ExamQuestion.truthy_correct answered)).
    split; intros Hc.
    + destruct (Z.leb_spec 2 (Z.of_nat correct_count)) as [_|Hn]; [|lia].
      repeat split; intros Ht; rewrite Ht; reflexivity.
    + destruct (Z.leb_spec 2 (Z.of_nat correct_count)) as [Hn|_]; [lia|].
      destruct (Z.leb_spec (Z.of_nat correct_count) 1) as [_|Hn]; [|lia].
      repeat split; intros Ht; rewrite Ht; reflexivity.
Qed.

(** No answered question among three: intermediate. *)
Lemma get_adaptive_next_difficulty_few_answered_witness :
  get_adaptive_next_difficulty "exam_ann_1"
    (Sample.manager
       [Sample.question "q1" "advanced" None;
        Sample.question "q2" "advanced" None;
        Sample.question "q3" "advanced" None])
  = "intermediate".
Proof.
  destruct (get_adaptive_next_difficulty_few_answered
              (Sample.manager
                 [Sample.question "q1" "advanced" None;
                  Sample.question "q2" "advanced" None;
                  Sample.question "q3" "advanced" None])
              "exam_ann_1"
              (Sample.session
                 [Sample.question "q1" "advanced" None;
                  Sample.question "q2" "advanced" None;
                  Sample.question "q3" "advanced" None]))
    as [Hnone _]; [reflexivity | simpl; lia |].
  apply Hnone. right. reflexivity.
Defined.

End Adaptive.

(** ** Submitting answers and completing a session *)

Section Session.

Import ExamSessionManager.






End Session.

Section Complete.

Import ExamSessionManager.

Lemma truthy_correct_spec (q : ExamQuestion.t) :
  ExamQuestion.truthy_correct q = bool_decide (ExamQuestion.is_correct q = Some true).
Proof.
  unfold ExamQuestion.truthy_correct.
  destruct (ExamQuestion.is_correct q) as [[]|]; reflexivity.
Qed.

Lemma filter_truthy_correct (qs : list ExamQuestion.t) :
  List.filter ExamQuestion.truthy_correct qs
  = List.filter (fun q => bool_decide (ExamQuestion.is_correct q = Some true)) qs.
Proof.
  induction qs as [|q qs IH]; [reflexivity|].
  cbn [List.filter]. rewrite truthy_correct_spec, IH. reflexivity.
Qed.

(** The float score stays within [2^-46] (the spacing of the doubles
    between 64 and 128) of the number [100 * C / T]; checked for every
    exam of up to 100 questions. *)
Lemma score_close_to_percentage (c t : Z) :
  0 <= c <= t -> 0 < t <= 100 ->
  let score := Py.float_value (Py.true_div c t * 100)%float in
  let percentage := (100 * inject_Z c / inject_Z t)%Q in
  (percentage - (1 # 2 ^ 46) <= score <= percentage + (1 # 2 ^ 46))%Q.
Proof.
  intros Hc Ht.
  assert (Hall :
    forallb (fun t =>
      forallb (fun c =>
        let score := Py.float_value (Py.true_div c t * 100)%float in
        let percentage := (100 * inject_Z c / inject_Z t)%Q in
        Qle_bool (percentage - (1 # 2 ^ 46)) score
        && Qle_bool score (percentage + (1 # 2 ^ 46)))
        (seqZ 0 (t + 1)))
      (seqZ 1 100) = true) by (vm_compute; reflexivity).
  rewrite forallb_forall in Hall.
  specialize (Hall t). rewrite forallb_forall in Hall.
  specialize (Hall ltac:(apply list_elem_of_In, elem_of_seqZ; lia) c
                ltac:(apply list_elem_of_In, elem_of_seqZ; lia)).
  cbv zeta in Hall. apply andb_prop in Hall as [Hlo Hhi].
  cbv zeta. split; apply Qle_bool_iff; assumption.
Qed.

(** C5, as stated, fails in floating point: with 7 of 25 questions
    correct the score is [7 / 25 * 100 = 28.000000000000004], which is
    neither the number [100 * 7 / 25 = 28] nor the float that Python
    computes for [100 * 7 / 25]. *)
Lemma complete_session_seven_of_twenty_five :
  exists result,
    (complete_session "exam_ann_1" 4000 (Sample.manager (Sample.answered 7 18))).1
      = Returns result /\
    cr_total result = 25 /\
    cr_correct result = 7 /\
    cr_score result = 0x1.c000000000001p+4%float /\
    (Py.float_value (cr_score result) == 28 + (1 # 2 ^ 48))%Q /\
    ~ (Py.float_value (cr_score result) == 100 * inject_Z 7 / inject_Z 25)%Q /\
    PrimFloat.eqb (cr_score result) (Py.true_div (100 * 7) 25) = false.
Proof.
  eexists. split; [vm_compute; reflexivity|]. cbn [cr_total cr_correct cr_score].
  split; [reflexivity|]. split; [reflexivity|]. split; [reflexivity|].
  split; [vm_compute; reflexivity|]. split; [|reflexivity].
  intros H. vm_compute in H. discriminate.
Qed.

(** C5, amended.  For an existing session with [T] questions of which
    [C] have [is_correct] equal to [True], [complete_session] returns the
    counts [C] and [T] and the score [C / T * 100] as the floats compute it
    (the quotient rounded to a double, then the product rounded to a
    double), [0] when [T = 0], and stores the session with status
    "completed" and that score.  For a session of up to 100 questions the
    score lies within [2^-46] of the number [100 * C / T]. *)
Theorem complete_session_score
    (m : ExamSessionManager.t) (session_id : string) (session : ExamSession.t)
    (now : Z) :
  sessions m !! session_id = Some session ->
  let T := Py.len (ExamSession.questions session) in
  let C := Py.len (List.filter
                     (fun q => bool_decide (ExamQuestion.is_correct q = Some true))
                     (ExamSession.questions session)) in
  exists result session',
    (complete_session session_id now m).1 = Returns result /\
    (0 < T ->
     cr_score result = (Py.true_div C T * 100)%float) /\
    (T = 0 -> cr_score result = 0%float) /\
    (0 < T <= 100 ->
     (100 * inject_Z C / inject_Z T - (1 # 2 ^ 46)
      <= Py.float_value (cr_score result)
      <= 100 * inject_Z C / inject_Z T + (1 # 2 ^ 46))%Q) /\
    cr_correct result = C /\
    cr_total result = T /\
    sessions (complete_session session_id now m).2 !! session_id = Some session' /\
    ExamSession.status session' = "completed" /\
    ExamSession.score session' = Some (cr_score result).
Proof.
  intros Hs T C. unfold complete_session. rewrite Hs.
  destruct (LearnerProfileManager.record_exam_completion _ _ _ _) as [r lm'].
  cbn [fst snd]. eexists _, _. split; [reflexivity|]. cbn [cr_score cr_correct cr_total].
  rewrite filter_truthy_correct. fold T C.
  assert (HC : 0 <= C <= T).
  { subst C T. unfold Py.len.
    pose proof (List.filter_length_le
                  (fun q => bool_decide (ExamQuestion.is_correct q = Some true))
                  (ExamSession.questions session)).
    lia. }
  repeat split.
  - intros HT. destruct (Z.ltb_spec 0 T) as [_|Hn]; [|lia]. reflexivity.
  - intros HT. rewrite HT. reflexivity.
  - destruct (Z.ltb_spec 0 T) as [_|Hn]; [|lia].
    apply (score_close_to_percentage C T); assumption.
  - destruct (Z.ltb_spec 0 T) as [_|Hn]; [|lia].
    apply (score_close_to_percentage C T); assumption.
  - apply lookup_insert_eq.
  - reflexivity.
  - reflexivity.
Qed.

(** Three questions, two of them correct: the score is
    [2 / 3 * 100 = 66.66666666666666]. *)
Lemma complete_session_score_witness :
  let qs := [Sample.question "q1" "beginner" (Some true);
             Sample.question "q2" "intermediate" (Some false);
             Sample.question "q3" "intermediate" (Some true)] in
  exists result session',
    (complete_session "exam_ann_1" 4000 (Sample.manager qs)).1 = Returns result /\
    cr_score result = 0x1.0aaaaaaaaaaaap+6%float /\
    cr_correct result = 2 /\
    cr_total result = 3 /\
    sessions (complete_session "exam_ann_1" 4000 (Sample.manager qs)).2 !! "exam_ann_1"
      = Some session' /\
    ExamSession.status session' = "completed" /\
    ExamSession.score session' = Some (cr_score result).
Proof.
  cbv zeta.
  destruct (complete_session_score
              (Sample.manager
                 [Sample.question "q1" "beginner" (Some true);
                  Sample.question "q2" "intermediate" (Some false);
                  Sample.question "q3" "intermediate" (Some true)])
              "exam_ann_1"
              (Sample.session
                 [Sample.question "q1" "beginner" (Some true);
                  Sample.question "q2" "intermediate" (Some false);
                  Sample.question "q3" "intermediate" (Some true)])
              4000 eq_refl)
    as (result & session' & Hres & Hscore & _ & _ & Hc & Ht & Hsess & Hstatus & Hsc).
  exists result, session'. split; [exact Hres|]. split.
  - rewrite Hscore by (unfold Py.len; simpl; lia). reflexivity.
  - auto.
Defined.

End Complete.

(** ** The profile store *)

Section Store.

Import LearnerProfileManager.

Lemma calculate_proficiency_table (accuracy : Q) (attempts : Z) :
  _calculate_proficiency accuracy attempts = Spec.proficiency_table accuracy attempts.
Proof.
  unfold _calculate_proficiency, Spec.proficiency_table, Py.ge.
  destruct (Z.ltb_spec attempts 2); [reflexivity|].
  destruct (Z.ltb_spec attempts 4).
  { destruct (Z.leb_spec 2 attempts); [|lia].
    destruct (Z.leb_spec attempts 3); [|lia]. reflexivity. }
  destruct (Z.leb_spec attempts 3); [lia|]. rewrite andb_false_r.
  destruct (Z.ltb_spec attempts 8).
  { destruct (Z.leb_spec 4 attempts); [|lia].
    destruct (Z.leb_spec attempts 7); [|lia]. reflexivity. }
  destruct (Z.leb_spec attempts 7); [lia|]. rewrite andb_false_r. reflexivity.
Qed.

Lemma dict_get_set_eq {V : Type} (k : string) (v : V) (d : dict V) :
  Dict.get k (Dict.set k v d) = Some v.
Proof.
  induction d as [|[k' v'] d IH]; cbn.
  - destruct (decide (k = k)); [reflexivity|contradiction].
  - destruct (decide (k = k')) as [->|Hne]; cbn.
    + destruct (decide (k' = k')); [reflexivity|contradiction].
    + destruct (decide (k = k')); [contradiction|exact IH].
Qed.

Lemma dict_get_set_ne {V : Type} (k k' : string) (v : V) (d : dict V) :
  k <> k' -> Dict.get k' (Dict.set k v d) = Dict.get k' d.
Proof.
  intros Hne. induction d as [|[k0 v0] d IH]; cbn.
  - destruct (decide (k' = k)); [congruence|reflexivity].
  - destruct (decide (k = k0)) as [->|Hne0]; cbn.
    + destruct (decide (k' = k0)); [congruence|reflexivity].
    + destruct (decide (k' = k0)); [reflexivity|exact IH].
Qed.

Lemma dict_set_forallb {V : Type} (f : string * V -> bool) (k : string) (v : V)
    (d : dict V) :
  f (k, v) = true -> forallb f d = true -> forallb f (Dict.set k v d) = true.
Proof.
  intros Hv. induction d as [|[k' v'] d IH]; cbn.
  - rewrite Hv. reflexivity.
  - intros [H1 H2]%andb_prop. destruct (decide (k = k')); cbn.
    + rewrite Hv, H2. reflexivity.
    + rewrite H1, (IH H2). reflexivity.
Qed.

Lemma dict_get_forallb {V : Type} (f : string * V -> bool) (k : string) (v : V)
    (d : dict V) :
  (forall k1 k2 x, f (k1, x) = f (k2, x)) ->
  forallb f d = true -> Dict.get k d = Some v -> f (k, v) = true.
Proof.
  intros Hkey. induction d as [|[k' v'] d IH]; cbn; [discriminate|].
  intros [H1 H2]%andb_prop. destruct (decide (k = k')) as [->|].
  - intros [= <-]. exact H1.
  - apply IH, H2.
Qed.

Lemma dict_set_keys_nodup {V : Type} (k : string) (v : V) (d : dict V) :
  NoDup (Dict.keys d) -> NoDup (Dict.keys (Dict.set k v d)).
Proof.
  assert (Hin : forall k0 d0, k0 ∈ Dict.keys (Dict.set k v d0 : dict V) ->
                              k0 = k \/ k0 ∈ Dict.keys d0).
  { intros k0 d0. induction d0 as [|[k' v'] d0 IH]; cbn.
    - rewrite list_elem_of_singleton. auto.
    - destruct (decide (k = k')) as [->|]; cbn; rewrite !elem_of_cons; [tauto|].
      intros [->|H]; [tauto|]. destruct (IH H); tauto. }
  induction d as [|[k' v'] d IH]; cbn; intros Hnd.
  - apply NoDup_singleton.
  - apply NoDup_cons in Hnd as [Hk' Hnd]. destruct (decide (k = k')) as [->|Hne]; cbn.
    + apply NoDup_cons. split; assumption.
    + apply NoDup_cons. split; [|apply IH, Hnd].
      intros H. destruct (Hin _ _ H); [congruence|contradiction].
Qed.

(** One iteration of the skill loop on non-negative counters: it returns,
    touches only the entry of [skill_id], and leaves there the incremented
    counters, their quotient and the tier computed from both. *)
Lemma record_skill_spec (attempt : QuestionAttempt.t) (skill_id : string)
    (sp : dict SkillPerformance.t) :
  forallb Spec.skill_nonneg sp = true ->
  exists sp' perf,
    record_skill attempt skill_id sp = (Returns tt, sp') /\
    Dict.get skill_id sp' = Some perf /\
    (forall k, skill_id <> k -> Dict.get k sp' = Dict.get k sp) /\
    forallb Spec.skill_nonneg sp' = true /\
    (NoDup (Dict.keys sp) -> NoDup (Dict.keys sp')) /\
    SkillPerformance.total_attempts perf
      = match Dict.get skill_id sp with
        | Some old => SkillPerformance.total_attempts old
        | None => 0
        end + 1 /\
    SkillPerformance.correct_attempts perf
      = match Dict.get skill_id sp with
        | Some old => SkillPerformance.correct_attempts old
        | None => 0
        end + (if QuestionAttempt.correct attempt then 1 else 0) /\
    SkillPerformance.accuracy perf
      = (inject_Z (SkillPerformance.correct_attempts perf)
         / inject_Z (SkillPerformance.total_attempts perf))%Q /\
    SkillPerformance.proficiency_level perf
      = _calculate_proficiency (SkillPerformance.accuracy perf)
          (SkillPerformance.total_attempts perf).
Proof.
  intros Hnn. unfold record_skill, Dict.mem.
  destruct (Dict.get skill_id sp) as [old|] eqn:Hget.
  - rewrite Hget.
    assert (Hold : 0 <= SkillPerformance.total_attempts old).
    { apply Z.leb_le.
      apply (dict_get_forallb Spec.skill_nonneg skill_id old sp); auto. }
    destruct (Z.eqb_spec (SkillPerformance.total_attempts old + 1) 0) as [H0|_]; [lia|].
    eexists _, _. split; [reflexivity|]. split; [apply dict_get_set_eq|].
    split; [intros k Hk; apply dict_get_set_ne, Hk|].
    split; [apply dict_set_forallb; [apply Z.leb_le; cbn; lia | exact Hnn]|].
    split; [apply dict_set_keys_nodup|].
    cbn. repeat split. destruct (QuestionAttempt.correct attempt); lia.
  - rewrite dict_get_set_eq. cbn [SkillPerformance.total_attempts
      SkillPerformance.correct_attempts SkillPerformance.skill_id].
    cbn [Z.add Z.eqb Pos.add].
    eexists _, _. split; [reflexivity|]. split; [apply dict_get_set_eq|].
    split; [intros k Hk; rewrite !dict_get_set_ne by exact Hk; reflexivity|].
    split; [apply dict_set_forallb; [reflexivity|];
            apply dict_set_forallb; [reflexivity|exact Hnn]|].
    split; [intros Hnd; apply dict_set_keys_nodup, dict_set_keys_nodup, Hnd|].
    cbn. repeat split.
Qed.

(** The skill loop on non-negative counters: it returns; an id that occurs
    [n > 0] times in the list has its counters advanced by [n] and its
    accuracy and tier recomputed; other entries are untouched. *)
Lemma record_skills_spec (attempt : QuestionAttempt.t) (ids : list string) :
  forall sp : dict SkillPerformance.t,
  forallb Spec.skill_nonneg sp = true ->
  exists sp',
    record_skills attempt ids sp = (Returns tt, sp') /\
    forallb Spec.skill_nonneg sp' = true /\
    (NoDup (Dict.keys sp) -> NoDup (Dict.keys sp')) /\
    forall s,
      (Spec.count s ids = 0 -> Dict.get s sp' = Dict.get s sp) /\
      (0 < Spec.count s ids ->
       exists perf,
         Dict.get s sp' = Some perf /\
         SkillPerformance.total_attempts perf
           = Spec.total_of (Dict.get s sp) + Spec.count s ids /\
         SkillPerformance.correct_attempts perf
           = Spec.correct_of (Dict.get s sp)
             + (if QuestionAttempt.correct attempt then Spec.count s ids else 0) /\
         SkillPerformance.accuracy perf
           = (inject_Z (SkillPerformance.correct_attempts perf)
              / inject_Z (SkillPerformance.total_attempts perf))%Q /\
         SkillPerformance.proficiency_level perf
           = _calculate_proficiency (SkillPerformance.accuracy perf)
               (SkillPerformance.total_attempts perf)).
Proof.
  induction ids as [|id rest IH]; intros sp Hnn.
  - exists sp. cbn. repeat split; auto. unfold Spec.count, Py.len. cbn. lia.
  - destruct (record_skill_spec attempt id sp Hnn)
      as (sp1 & perf1 & Hstep & Hget1 & Hother & Hnn1 & Hnd1 & Ht1 & Hc1 & Ha1 & Hp1).
    destruct (IH sp1 Hnn1) as (sp' & Hloop & Hnn' & Hnd' & Hall).
    exists sp'. cbn [record_skills]. rewrite Hstep.
    split; [exact Hloop|]. split; [exact Hnn'|]. split; [auto|].
    intros s. destruct (Hall s) as [Hzero Hpos].
    assert (Hcount : Spec.count s (id :: rest)
                     = (if bool_decide (id = s) then 1 else 0) + Spec.count s rest).
    { unfold Spec.count, Py.len. cbn [List.filter].
      destruct (bool_decide (id = s)); cbn [length]; lia. }
    assert (Hcnt0 : 0 <= Spec.count s rest) by (unfold Spec.count, Py.len; lia).
    rewrite Hcount. destruct (bool_decide_reflect (id = s)) as [->|Hne].
    + split; [lia|]. intros _.
      destruct (Z.eq_dec (Spec.count s rest) 0) as [H0|Hn0].
      * exists perf1. rewrite (Hzero H0), H0.
        split; [exact Hget1|].
        split; [rewrite Ht1; unfold Spec.total_of; destruct (Dict.get s sp); lia|].
        split; [rewrite Hc1; unfold Spec.correct_of;
                destruct (Dict.get s sp), (QuestionAttempt.correct attempt); lia|].
        split; assumption.
      * destruct Hpos as (perf & Hg & Ht & Hc & Ha & Hp); [lia|].
        exists perf. rewrite Hget1 in Ht, Hc. cbn [Spec.total_of Spec.correct_of] in Ht, Hc.
        split; [exact Hg|].
        split; [rewrite Ht, Ht1; unfold Spec.total_of; destruct (Dict.get s sp); lia|].
        split; [rewrite Hc, Hc1; unfold Spec.correct_of;
                destruct (Dict.get s sp), (QuestionAttempt.correct attempt); lia|].
        split; assumption.
    + rewrite <- (Hother s Hne). rewrite Z.add_0_l. split; assumption.
Qed.

(** The topic part on non-negative counters returns and keeps them so. *)
Lemma record_topic_spec (attempt : QuestionAttempt.t) (tp : dict TopicPerformance.t) :
  forallb Spec.topic_nonneg tp = true ->
  exists tp',
    record_topic attempt tp = (Returns tt, tp') /\
    forallb Spec.topic_nonneg tp' = true /\
    (NoDup (Dict.keys tp) -> NoDup (Dict.keys tp')).
Proof.
  intros Hnn. unfold record_topic.
  set (topic := Py.strip (Py.lower (QuestionAttempt.topic attempt))).
  destruct (decide (topic = "")); [exists tp; auto|].
  unfold Dict.mem. destruct (Dict.get topic tp) as [old|] eqn:Hget.
  - rewrite Hget.
    assert (Hold : 0 <= TopicPerformance.total_attempts old).
    { apply Z.leb_le. apply (dict_get_forallb Spec.topic_nonneg topic old tp); auto. }
    destruct (Z.eqb_spec (TopicPerformance.total_attempts old + 1) 0) as [H0|_]; [lia|].
    eexists. split; [reflexivity|].
    split; [apply dict_set_forallb; [apply Z.leb_le; cbn; lia | exact Hnn]|].
    apply dict_set_keys_nodup.
  - rewrite dict_get_set_eq. cbn [TopicPerformance.total_attempts Z.add Z.eqb Pos.add].
    eexists. split; [reflexivity|].
    split; [apply dict_set_forallb; [reflexivity|];
            apply dict_set_forallb; [reflexivity|exact Hnn]|].
    intros Hnd. apply dict_set_keys_nodup, dict_set_keys_nodup, Hnd.
Qed.

Lemma count_nonneg (s : string) (ids : list string) : 0 <= Spec.count s ids.
Proof. unfold Spec.count, Py.len. lia. Qed.

Lemma count_pos_elem (s : string) (ids : list string) :
  0 < Spec.count s ids <-> s ∈ ids.
Proof.
  unfold Spec.count, Py.len. induction ids as [|x ids IH]; cbn.
  - split; [lia|]. intros H. inversion H.
  - rewrite elem_of_cons. destruct (bool_decide_reflect (x = s)) as [->|Hne]; cbn [length].
    + split; [auto|lia].
    + rewrite IH. split; [auto|]. intros [H|H]; [congruence|exact H].
Qed.

Lemma count_nodup (s : string) (ids : list string) :
  NoDup ids -> Spec.count s ids = if bool_decide (s ∈ ids) then 1 else 0.
Proof.
  intros Hnd. induction Hnd as [|x ids Hx Hnd IH].
  - reflexivity.
  - unfold Spec.count, Py.len in *. cbn [List.filter].
    destruct (bool_decide_reflect (x = s)) as [->|Hne]; cbn [length].
    + rewrite bool_decide_eq_true_2 by (apply elem_of_cons; auto).
      rewrite bool_decide_eq_false_2 in IH by exact Hx. lia.
    + rewrite IH.
      assert (bool_decide (s ∈ x :: ids) = bool_decide (s ∈ ids)) as ->; [|reflexivity].
      apply bool_decide_ext. rewrite elem_of_cons.
      split; [|auto]. intros [H|H]; [congruence|exact H].
Qed.

Lemma occurrences_app (s : string) (h1 h2 : list QuestionAttempt.t) :
  Spec.occurrences s (h1 ++ h2) = Spec.occurrences s h1 + Spec.occurrences s h2.
Proof.
  unfold Spec.occurrences, Py.len.
  rewrite map_app, concat_app, List.filter_app, length_app. lia.
Qed.

Lemma occurrences_cons (s : string) (a : QuestionAttempt.t) (h : list QuestionAttempt.t) :
  Spec.occurrences s (a :: h)
  = Spec.count s (QuestionAttempt.skill_ids a) + Spec.occurrences s h.
Proof.
  unfold Spec.occurrences, Spec.count, Py.len. cbn [map concat].
  rewrite List.filter_app, length_app. lia.
Qed.

Lemma occurrences_one (s : string) (a : QuestionAttempt.t) :
  Spec.occurrences s [a] = Spec.count s (QuestionAttempt.skill_ids a).
Proof.
  rewrite occurrences_cons. unfold Spec.occurrences, Py.len. cbn. lia.
Qed.

Lemma occurrences_nonneg (s : string) (h : list QuestionAttempt.t) :
  0 <= Spec.occurrences s h.
Proof. unfold Spec.occurrences, Py.len. lia. Qed.

Lemma correct_only_snoc (h : list QuestionAttempt.t) (a : QuestionAttempt.t) :
  Spec.correct_only (h ++ [a])
  = Spec.correct_only h ++ (if QuestionAttempt.correct a then [a] else []).
Proof.
  unfold Spec.correct_only. rewrite List.filter_app. cbn.
  destruct (QuestionAttempt.correct a); reflexivity.
Qed.

Lemma occurrences_correct_le (s : string) (h : list QuestionAttempt.t) :
  Spec.occurrences s (Spec.correct_only h) <= Spec.occurrences s h.
Proof.
  induction h as [|a h IH]; [reflexivity|].
  unfold Spec.correct_only in *. cbn [List.filter].
  pose proof (count_nonneg s (QuestionAttempt.skill_ids a)).
  destruct (QuestionAttempt.correct a); rewrite !occurrences_cons; lia.
Qed.

Lemma occurrences_tagging (s : string) (h : list QuestionAttempt.t) :
  (forall a, a ∈ h -> NoDup (QuestionAttempt.skill_ids a)) ->
  Spec.occurrences s h = Spec.tagging s h.
Proof.
  induction h as [|a h IH]; intros Hnd; [reflexivity|].
  rewrite occurrences_cons, IH by (intros; apply Hnd, elem_of_cons; auto).
  rewrite count_nodup by (apply Hnd, elem_of_cons; auto).
  unfold Spec.tagging, Py.len. cbn [List.filter].
  destruct (bool_decide (s ∈ QuestionAttempt.skill_ids a)); cbn [length]; lia.
Qed.

Lemma ratio_bounds (c n : Z) :
  0 <= c <= n -> 1 <= n -> (0 <= inject_Z c / inject_Z n <= 1)%Q.
Proof.
  intros Hc Hn.
  assert (Hpos : (0 < inject_Z n)%Q).
  { change (inject_Z 0 < inject_Z n)%Q. rewrite <- Zlt_Qlt. lia. }
  split.
  - apply Qle_shift_div_l; [exact Hpos|]. rewrite Qmult_0_l.
    change (inject_Z 0 <= inject_Z c)%Q. rewrite <- Zle_Qle. lia.
  - apply Qle_shift_div_r; [exact Hpos|]. rewrite Qmult_1_l, <- Zle_Qle. lia.
Qed.

(** [record_attempt] on a profile with non-negative counters returns; it
    appends the attempt to the history and runs the skill loop and the topic
    update on the dictionaries. *)
Lemma record_attempt_on_spec (attempt : QuestionAttempt.t) (now : Z)
    (p : LearnerProfile.t) :
  Spec.nonneg_counters p = true ->
  exists sp' tp',
    record_attempt_on attempt now p
      = (Returns tt,
         LearnerProfile.mk (LearnerProfile.learner_id p) (LearnerProfile.name p)
           (LearnerProfile.role p) (LearnerProfile.attempts p ++ [attempt]) sp' tp'
           (LearnerProfile.exam_history p) (LearnerProfile.created_at p) now) /\
    record_skills attempt (QuestionAttempt.skill_ids attempt)
      (LearnerProfile.skill_performance p) = (Returns tt, sp') /\
    forallb Spec.skill_nonneg sp' = true /\
    forallb Spec.topic_nonneg tp' = true /\
    (NoDup (Dict.keys (LearnerProfile.skill_performance p)) -> NoDup (Dict.keys sp')) /\
    (NoDup (Dict.keys (LearnerProfile.topic_performance p)) -> NoDup (Dict.keys tp')).
Proof.
  intros [Hs Ht]%andb_prop.
  destruct (record_skills_spec attempt (QuestionAttempt.skill_ids attempt) _ Hs)
    as (sp' & Hloop & Hnn & Hnd & _).
  destruct (record_topic_spec attempt _ Ht) as (tp' & Htopic & Hnnt & Hndt).
  exists sp', tp'. unfold record_attempt_on. cbn. rewrite Hloop. cbn. rewrite Htopic.
  repeat split; auto.
Qed.

(** The skill entries after [record_attempt] agree with the extended
    history when they agreed with the history before. *)
Lemma record_attempt_on_well_formed (attempt : QuestionAttempt.t) (now : Z)
    (p : LearnerProfile.t) :
  Spec.well_formed p ->
  exists p',
    record_attempt_on attempt now p = (Returns tt, p') /\
    Spec.well_formed p' /\
    LearnerProfile.attempts p' = LearnerProfile.attempts p ++ [attempt].
Proof.
  intros (Hnn & Hnds & Hndt & Hcons).
  destruct (record_attempt_on_spec attempt now p Hnn)
    as (sp' & tp' & Hrun & Hloop & Hnns & Hnnt & Hnds' & Hndt').
  eexists. split; [exact Hrun|]. split; [|reflexivity].
  split; [unfold Spec.nonneg_counters; cbn; rewrite Hnns, Hnnt; reflexivity|].
  split; [cbn; auto|]. split; [cbn; auto|].
  intros s. unfold Spec.tracked_consistently. cbn.
  pose proof (andb_prop _ _ Hnn) as [Hs _].
  destruct (record_skills_spec attempt (QuestionAttempt.skill_ids attempt) _ Hs)
    as (sp2 & Hloop2 & _ & _ & Hall).
  rewrite Hloop in Hloop2. injection Hloop2 as <-.
  destruct (Hall s) as [Hzero Hpos].
  pose proof (Hcons s) as Hold. unfold Spec.tracked_consistently in Hold.
  pose proof (count_nonneg s (QuestionAttempt.skill_ids attempt)) as Hcnt.
  pose proof (occurrences_nonneg s (Spec.correct_only (LearnerProfile.attempts p))) as Hc0.
  pose proof (occurrences_correct_le s (LearnerProfile.attempts p)) as Hcle.
  rewrite occurrences_app, occurrences_one, correct_only_snoc, occurrences_app.
  destruct (Z.eq_dec (Spec.count s (QuestionAttempt.skill_ids attempt)) 0) as [H0|Hn0].
  - rewrite (Hzero H0), H0.
    assert (Hc : Spec.occurrences s
                   (if QuestionAttempt.correct attempt then [attempt] else []) = 0).
    { destruct (QuestionAttempt.correct attempt);
        [rewrite occurrences_one; exact H0 | reflexivity]. }
    rewrite Hc, !Z.add_0_r. exact Hold.
  - destruct Hpos as (perf & Hg & Ht & Hc & Ha & Hp); [lia|].
    rewrite Hg.
    assert (Hto : Spec.total_of (Dict.get s (LearnerProfile.skill_performance p))
                  = Spec.occurrences s (LearnerProfile.attempts p)).
    { destruct (Dict.get s (LearnerProfile.skill_performance p)); cbn; [tauto|lia]. }
    assert (Hco : Spec.correct_of (Dict.get s (LearnerProfile.skill_performance p))
                  = Spec.occurrences s (Spec.correct_only (LearnerProfile.attempts p))).
    { destruct (Dict.get s (LearnerProfile.skill_performance p)); cbn; [tauto|lia]. }
    rewrite Hto in Ht. rewrite Hco in Hc.
    split; [exact Ht|]. split.
    { rewrite Hc. destruct (QuestionAttempt.correct attempt);
        [rewrite occurrences_one; reflexivity | reflexivity]. }
    split; [exact Ha|]. split; [rewrite Hp; apply calculate_proficiency_table|].
    pose proof (occurrences_nonneg s (LearnerProfile.attempts p)). lia.
Qed.

(** Every profile of a reachable store satisfies the invariant. *)
Lemma reachable_well_formed (m : LearnerProfileManager.t) :
  Spec.reachable m ->
  forall learner_id p, profiles m !! learner_id = Some p -> Spec.well_formed p.
Proof.
  induction 1 as [|m id name role now Hm IH|m id attempt now Hm IH|m id rec now Hm IH];
    intros id' p Hp.
  - cbn in Hp. rewrite lookup_empty in Hp. discriminate.
  - unfold create_profile in Hp. destruct (profiles m !! id) as [p0|] eqn:Hid.
    + apply (IH id' p Hp).
    + cbn in Hp. destruct (decide (id = id')) as [->|Hne].
      * rewrite lookup_insert_eq in Hp. injection Hp as <-.
        repeat split; try apply NoDup_nil_2.
      * rewrite lookup_insert_ne in Hp by exact Hne. apply (IH id' p Hp).
  - unfold record_attempt in Hp. destruct (profiles m !! id) as [p0|] eqn:Hid.
    + destruct (record_attempt_on_well_formed attempt now p0 (IH id p0 Hid))
        as (p' & Hrun & Hwf & _).
      rewrite Hrun in Hp. cbn in Hp. destruct (decide (id = id')) as [->|Hne].
      * rewrite lookup_insert_eq in Hp. injection Hp as <-. exact Hwf.
      * rewrite lookup_insert_ne in Hp by exact Hne. apply (IH id' p Hp).
    + apply (IH id' p Hp).
  - unfold record_exam_completion in Hp. destruct (profiles m !! id) as [p0|] eqn:Hid.
    + cbn in Hp. destruct (decide (id = id')) as [->|Hne].
      * rewrite lookup_insert_eq in Hp. injection Hp as <-.
        exact (IH id' p0 Hid).
      * rewrite lookup_insert_ne in Hp by exact Hne. apply (IH id' p Hp).
    + apply (IH id' p Hp).
Qed.

(** Reachable stores hold profiles with non-negative counters, so
    [record_attempt] never divides by zero on them. *)
Lemma reachable_nonneg_counters (m : LearnerProfileManager.t) (learner_id : string)
    (p : LearnerProfile.t) :
  Spec.reachable m -> profiles m !! learner_id = Some p -> Spec.nonneg_counters p = true.
Proof.
  intros Hm Hp. destruct (reachable_well_formed m Hm learner_id p Hp) as [Hnn _].
  exact Hnn.
Qed.

(** The spec's examples of the table. *)
Example proficiency_one_attempt : _calculate_proficiency (1 / 1) 1 = "novice".
Proof. reflexivity. Qed.

Example proficiency_four_of_five : _calculate_proficiency (4 / 5) 5 = "advanced".
Proof. reflexivity. Qed.

Example proficiency_nine_of_ten : _calculate_proficiency (9 / 10) 10 = "expert".
Proof. reflexivity. Qed.

Lemma count_zero_not_elem (s : string) (ids : list string) :
  s ∉ ids -> Spec.count s ids = 0.
Proof.
  intros Hs. unfold Spec.count, Py.len.
  induction ids as [|id rest IH]; [reflexivity|].
  cbn [List.filter]. destruct (bool_decide_reflect (id = s)) as [->|Hne].
  - exfalso. apply Hs, list_elem_of_here.
  - apply IH. intros Hin. apply Hs, list_elem_of_further, Hin.
Qed.

(** C3.  On a profile with non-negative counters [record_attempt] returns.
    For every skill id [s] of the attempt the stored entry holds the
    cumulative counters, that is the counters before the call advanced by
    the number of times the attempt lists [s] (the correct ones only for a
    correct attempt), their quotient as accuracy, and as tier the row of the
    specification's table for that accuracy and that attempt count.  The
    entries of the other skills are left as they were. *)
Theorem record_attempt_proficiency_table
    (m : LearnerProfileManager.t) (learner_id : string) (p : LearnerProfile.t)
    (attempt : QuestionAttempt.t) (now : Z) :
  profiles m !! learner_id = Some p ->
  Spec.nonneg_counters p = true ->
  exists p',
    record_attempt learner_id attempt now m
      = (Returns tt, LearnerProfileManager.mk (<[learner_id := p']> (profiles m))) /\
    (forall s, s ∈ QuestionAttempt.skill_ids attempt ->
      let before := Dict.get s (LearnerProfile.skill_performance p) in
      let n := Spec.count s (QuestionAttempt.skill_ids attempt) in
      let total := Spec.total_of before + n in
      let correct :=
        Spec.correct_of before + (if QuestionAttempt.correct attempt then n else 0) in
      exists perf,
        Dict.get s (LearnerProfile.skill_performance p') = Some perf /\
        SkillPerformance.total_attempts perf = total /\
        SkillPerformance.correct_attempts perf = correct /\
        SkillPerformance.accuracy perf = (inject_Z correct / inject_Z total)%Q /\
        SkillPerformance.proficiency_level perf
          = Spec.proficiency_table (inject_Z correct / inject_Z total)%Q total) /\
    (forall s, s ∉ QuestionAttempt.skill_ids attempt ->
      Dict.get s (LearnerProfile.skill_performance p')
      = Dict.get s (LearnerProfile.skill_performance p)).
Proof.
  intros Hp Hnn.
  destruct (record_attempt_on_spec attempt now p Hnn)
    as (sp' & tp' & Hrun & Hloop & _).
  eexists. unfold record_attempt. rewrite Hp, Hrun. split; [reflexivity|].
  cbn [LearnerProfile.skill_performance].
  pose proof (andb_prop _ _ Hnn) as [Hsk _].
  destruct (record_skills_spec attempt (QuestionAttempt.skill_ids attempt) _ Hsk)
    as (sp2 & Hloop2 & _ & _ & Hall).
  rewrite Hloop in Hloop2. injection Hloop2 as <-.
  split.
  - intros s Hs. cbv zeta.
    destruct (Hall s) as [_ Hpos].
    destruct Hpos as (perf & Hg & Ht & Hc & Ha & Htier); [apply count_pos_elem, Hs|].
    exists perf. split; [exact Hg|]. split; [exact Ht|]. split; [exact Hc|].
    rewrite Htier, Ha, Ht, Hc. split; [reflexivity|]. apply calculate_proficiency_table.
  - intros s Hs. destruct (Hall s) as [Hzero _].
    apply Hzero, count_zero_not_elem, Hs.
Qed.

(** A fifth attempt, correct, after three correct out of four: 5 attempts,
    4 correct, accuracy 4/5, tier advanced. *)
Lemma record_attempt_proficiency_table_witness :
  exists p' perf,
    record_attempt "bea" (Sample.attempt ["skill_vent_setup"] true) 2000 Sample.bea_store
      = (Returns tt,
         LearnerProfileManager.mk (<["bea" := p']> (profiles Sample.bea_store))) /\
    Dict.get "skill_vent_setup" (LearnerProfile.skill_performance p') = Some perf /\
    SkillPerformance.total_attempts perf = 5 /\
    SkillPerformance.correct_attempts perf = 4 /\
    SkillPerformance.accuracy perf = (inject_Z 4 / inject_Z 5)%Q /\
    SkillPerformance.proficiency_level perf = "advanced".
Proof.
  destruct (record_attempt_proficiency_table Sample.bea_store "bea" Sample.bea
              (Sample.attempt ["skill_vent_setup"] true) 2000)
    as (p' & Hrun & Hall & _); [reflexivity | reflexivity |].
  destruct (Hall "skill_vent_setup") as (perf & Hg & Ht & Hc & Ha & Htier);
    [apply list_elem_of_here|].
  exists p', perf. split; [exact Hrun|]. split; [exact Hg|].
  split; [exact Ht|]. split; [exact Hc|]. split; [exact Ha|]. exact Htier.
Defined.

(** On a stored profile of a reachable store, [record_attempt] extends the
    history by exactly the attempt. *)
Lemma record_attempt_history (m : LearnerProfileManager.t) (learner_id : string)
    (p : LearnerProfile.t) (attempt : QuestionAttempt.t) (now : Z) :
  Spec.reachable m ->
  profiles m !! learner_id = Some p ->
  exists p',
    record_attempt learner_id attempt now m
      = (Returns tt, LearnerProfileManager.mk (<[learner_id := p']> (profiles m))) /\
    LearnerProfile.attempts p' = LearnerProfile.attempts p ++ [attempt].
Proof.
  intros Hm Hp.
  destruct (record_attempt_on_well_formed attempt now p
              (reachable_well_formed m Hm learner_id p Hp)) as (p' & Hrun & _ & Hh).
  exists p'. unfold record_attempt. rewrite Hp, Hrun. auto.
Qed.

(** C4, as stated, fails when an attempt lists a skill twice: one call,
    two counted attempts. *)
Lemma record_attempt_duplicate_tag :
  let attempt := Sample.attempt ["skill_vent_setup"; "skill_vent_setup"] true in
  let m := (record_attempt "ann" attempt 2000 Sample.store).2 in
  Spec.reachable m /\
  exists p perf,
    profiles m !! "ann" = Some p /\
    LearnerProfile.attempts p = [attempt] /\
    Dict.get "skill_vent_setup" (LearnerProfile.skill_performance p) = Some perf /\
    SkillPerformance.total_attempts perf = 2 /\
    SkillPerformance.total_attempts perf
      <> Spec.tagging "skill_vent_setup" (LearnerProfile.attempts p).
Proof.
  cbv zeta. split.
  - apply Spec.reachable_attempt, Spec.reachable_create, Spec.reachable_empty.
  - eexists _, _. split; [reflexivity|]. split; [reflexivity|].
    split; [reflexivity|]. split; [reflexivity|]. vm_compute. discriminate.
Qed.

(** C4, amended.  In every profile of a store reachable by the store's
    operations, the entry of a tracked skill counts the occurrences of the
    skill in the skill lists of the recorded attempts, and among them those
    of correct attempts; its accuracy is the quotient of the two counters
    and lies between 0 and 1.  When no recorded attempt lists a skill twice,
    the counters are the number of recorded attempts tagging the skill and
    the number of correct ones among them. *)
Theorem record_attempt_counters (m : LearnerProfileManager.t) (learner_id : string)
    (p : LearnerProfile.t) (s : string) (perf : SkillPerformance.t) :
  Spec.reachable m ->
  profiles m !! learner_id = Some p ->
  Dict.get s (LearnerProfile.skill_performance p) = Some perf ->
  let history := LearnerProfile.attempts p in
  SkillPerformance.total_attempts perf = Spec.occurrences s history /\
  SkillPerformance.correct_attempts perf = Spec.occurrences s (Spec.correct_only history) /\
  SkillPerformance.accuracy perf
    = (inject_Z (SkillPerformance.correct_attempts perf)
       / inject_Z (SkillPerformance.total_attempts perf))%Q /\
  (0 <= SkillPerformance.accuracy perf <= 1)%Q /\
  ((forall a, a ∈ history -> NoDup (QuestionAttempt.skill_ids a)) ->
   SkillPerformance.total_attempts perf = Spec.tagging s history /\
   SkillPerformance.correct_attempts perf = Spec.tagging s (Spec.correct_only history)).
Proof.
  intros Hm Hp Hg history.
  destruct (reachable_well_formed m Hm learner_id p Hp) as (_ & _ & _ & Hcons).
  specialize (Hcons s). unfold Spec.tracked_consistently in Hcons. rewrite Hg in Hcons.
  destruct Hcons as (Ht & Hc & Ha & _ & H1). fold history in Ht, Hc.
  split; [exact Ht|]. split; [exact Hc|]. split; [exact Ha|]. split.
  - rewrite Ha. apply ratio_bounds; [|exact H1]. rewrite Hc, Ht.
    split; [apply occurrences_nonneg | apply occurrences_correct_le].
  - intros Hnd. rewrite Ht, Hc. split; apply occurrences_tagging; [exact Hnd|].
    intros a Ha'. apply Hnd. unfold Spec.correct_only in Ha'.
    apply list_elem_of_In, List.filter_In in Ha' as [Hin _].
    apply list_elem_of_In, Hin.
Qed.

(** Two attempts on one skill, the second one wrong: counters 2 and 1. *)
Lemma record_attempt_counters_witness :
  let a1 := Sample.attempt ["skill_vent_setup"] true in
  let a2 := Sample.attempt ["skill_vent_setup"; "skill_sepsis_recognition"] false in
  let m := (record_attempt "ann" a2 3000 (record_attempt "ann" a1 2000 Sample.store).2).2 in
  exists p perf,
    profiles m !! "ann" = Some p /\
    Dict.get "skill_vent_setup" (LearnerProfile.skill_performance p) = Some perf /\
    SkillPerformance.total_attempts perf = 2 /\
    SkillPerformance.correct_attempts perf = 1 /\
    SkillPerformance.accuracy perf = (inject_Z 1 / inject_Z 2)%Q.
Proof.
  cbv zeta. eexists _, _. split; [reflexivity|]. split; [reflexivity|].
  pose proof (record_attempt_counters
                (record_attempt "ann"
                   (Sample.attempt ["skill_vent_setup"; "skill_sepsis_recognition"] false)
                   3000
                   (record_attempt "ann" (Sample.attempt ["skill_vent_setup"] true)
                      2000 Sample.store).2).2
                "ann" _ "skill_vent_setup" _
                (Spec.reachable_attempt _ _ _ _
                   (Spec.reachable_attempt _ _ _ _
                      (Spec.reachable_create _ _ _ _ _ Spec.reachable_empty)))
                eq_refl eq_refl) as (Ht & Hc & Ha & _).
  split; [exact Ht|]. split; [exact Hc|]. exact Ha.
Defined.

(** C7: the code at an attempt without skill tags.  [record_attempt]
    returns, the attempt enters the history and the topic aggregate, and no
    skill entry is created: the synthetic id [topic_sepsis_care] stays
    untracked. *)
Theorem record_attempt_without_tags :
  let attempt := Sample.attempt [] true in
  exists p,
    record_attempt "ann" attempt 2000 Sample.store
      = (Returns tt, LearnerProfileManager.mk {[ "ann" := p ]}) /\
    LearnerProfile.attempts p = [attempt] /\
    LearnerProfile.skill_performance p = [] /\
    Dict.get (topic_skill_id (QuestionAttempt.topic attempt))
      (LearnerProfile.skill_performance p) = None /\
    Dict.keys (LearnerProfile.topic_performance p) = ["sepsis care"].
Proof.
  cbv zeta. eexists. split; [vm_compute; reflexivity|]. repeat split.
Qed.

(** [record_attempt] never touches the skill entries when the attempt has no
    skill tags. *)
Lemma record_attempt_on_no_tags (attempt : QuestionAttempt.t) (now : Z)
    (p : LearnerProfile.t) :
  QuestionAttempt.skill_ids attempt = [] ->
  LearnerProfile.skill_performance (record_attempt_on attempt now p).2
  = LearnerProfile.skill_performance p.
Proof.
  intros Hnil. unfold record_attempt_on. rewrite Hnil. cbn.
  destruct (record_topic attempt (LearnerProfile.topic_performance p)) as [[|] tp];
    reflexivity.
Qed.

(** The attempt that [submit_answer] forwards is never without skill tags:
    a question without skill ids is forwarded under its topic's synthetic
    id. *)
Lemma attempt_of_tags (session_id : string) (time_spent : Z) (q : ExamQuestion.t) :
  QuestionAttempt.skill_ids (ExamSessionManager.attempt_of session_id time_spent q) <> [] /\
  (ExamQuestion.skill_ids q = [] ->
   QuestionAttempt.skill_ids (ExamSessionManager.attempt_of session_id time_spent q)
   = [topic_skill_id (ExamQuestion.topic q)]).
Proof.
  unfold ExamSessionManager.attempt_of, ExamQuestion.skill_ids_or_topic. cbn.
  destruct (ExamQuestion.skill_ids q); split; intros; congruence.
Qed.

End Store.

(** ** Skill gaps and strengths *)

Section Sorting.

Context {A : Type} (before : A -> A -> bool).
Hypothesis before_total : forall x y, before x y = true \/ before y x = true.
Hypothesis before_trans :
  forall x y z, before x y = true -> before y z = true -> before x z = true.






End Sorting.

Section Gaps.

Import LearnerProfileManager.











End Gaps.

(** ** Milestones *)

Section Milestones.

Import RecommendationEngine.

Lemma walk_all_met (ms : list Milestone) :
  Forall (fun m => ms_check m = true) ms ->
  forall current next,
    walk ms current next
    = (default current (last (map ms_name ms)),
       match ms with [] => next | _ => None end).
Proof.
  induction 1 as [|m rest Hm Hrest IH]; intros current next; [reflexivity|].
  cbn [walk]. rewrite Hm, IH. cbn [map]. rewrite last_cons.
  destruct rest as [|m' rest]; [reflexivity|].
  destruct (last (map ms_name (m' :: rest))) eqn:Hl; [reflexivity|].
  cbn [map] in Hl. rewrite last_cons in Hl. destruct (last (map ms_name rest)); discriminate.
Qed.

Lemma walk_first_unmet (pre : list Milestone) (m : Milestone) (rest : list Milestone) :
  Forall (fun m => ms_check m = true) pre ->
  ms_check m = false ->
  forall current next,
    walk (pre ++ m :: rest) current next
    = (default current (last (map ms_name pre)), Some m).
Proof.
  intros Hpre Hm. induction Hpre as [|x pre Hx Hpre IH]; intros current next.
  - cbn. rewrite Hm. reflexivity.
  - cbn [app walk]. rewrite Hx, IH. cbn [map]. rewrite last_cons.
    destruct (last (map ms_name pre)); reflexivity.
Qed.

Lemma milestones_ladder (total_questions topics_practiced exams_completed : Z)
    (overall_accuracy : Q) :
  map (fun m => (ms_name m, ms_check m))
    (milestones total_questions topics_practiced exams_completed overall_accuracy)
  = Spec.ladder total_questions topics_practiced exams_completed overall_accuracy.
Proof. reflexivity. Qed.

(** Rounding to one decimal moves an accuracy gate down by 0.05: the
    rounded value reaches the whole number [k] exactly when the value
    reaches [k - 0.05] (a tie at [k - 0.05] goes to the even tenth, which
    [k] is). *)
Lemma round_reaches (x : Q) (k : Z) :
  Py.ge (Py.round x 1) (inject_Z k) = true <-> (inject_Z k - 0.05 <= x)%Q.
Proof.
  unfold Py.ge, Py.round. rewrite Qle_bool_iff.
  destruct x as [n d]. cbn [Qnum Qden].
  change (10 ^ 1) with 10.
  pose proof (Z.div_mod (n * 10) (Z.pos d) ltac:(lia)) as Hdm.
  pose proof (Z.mod_pos_bound (n * 10) (Z.pos d) ltac:(lia)) as Hr.
  set (q := n * 10 / Z.pos d) in *. set (r := (n * 10) mod Z.pos d) in *.
  assert (Hm : forall m : Z,
             (inject_Z k <= inject_Z m / inject_Z 10)%Q <-> 10 * k <= m).
  { intros m. unfold Qle, Qdiv, Qmult, Qinv, inject_Z. cbn. lia. }
  assert (Hx : (inject_Z k - 0.05 <= n # d)%Q <-> (20 * k - 1) * Z.pos d <= 2 * (n * 10)).
  { unfold Qle, Qminus, Qplus, Qopp, inject_Z. cbn. lia. }
  rewrite Hx.
  destruct (Z.compare_spec (2 * r) (Z.pos d)) as [He|Hl|Hg]; rewrite Hm.
  - destruct (Z.even q) eqn:Hev.
    + apply Z.even_spec in Hev as [h Hh]. nia.
    + nia.
  - nia.
  - nia.
Qed.

Lemma round_gate (x : Q) (k : Z) (threshold : Q) :
  (threshold == inject_Z k - 0.05)%Q ->
  Qle_bool (k # 1) (Py.round x 1) = Qle_bool threshold x.
Proof.
  intros Hth. change (k # 1)%Q with (inject_Z k). apply Bool.eq_iff_eq_true.
  rewrite (Qle_bool_iff threshold x), Hth. apply round_reaches.
Qed.

(** The ladder over an accuracy rounded to one decimal is the ladder whose
    accuracy gates are lowered by 0.05. *)
Lemma ladder_rounded (total_questions topics_practiced exams_completed : Z) (x : Q) :
  Spec.ladder total_questions topics_practiced exams_completed (Py.round x 1)
  = [("Beginner", 5 <=? total_questions);
     ("Explorer", 3 <=? topics_practiced);
     ("Committed", 3 <=? exams_completed);
     ("Proficient", (25 <=? total_questions) && Qle_bool 69.95 x);
     ("Expert", (50 <=? total_questions) && Qle_bool 84.95 x);
     ("Master", (100 <=? total_questions) && Qle_bool 89.95 x)].
Proof.
  unfold Spec.ladder.
  rewrite (round_gate x 70 69.95), (round_gate x 85 84.95), (round_gate x 90 89.95);
    reflexivity.
Qed.

(** C6, as stated, fails just below a gate: with 142 of 203 answers
    correct the accuracy is below 70 %, so the ladder of the claim has
    Proficient as its first unmet milestone, but the code compares the
    accuracy rounded to one decimal, 70.0, and reports Proficient as
    reached and Expert as next. *)
Lemma get_next_milestone_rounded_gate :
  let p := Sample.fay in
  let total := Py.len (LearnerProfile.attempts p) in
  let correct := Py.len (List.filter QuestionAttempt.correct (LearnerProfile.attempts p)) in
  let topics := Py.len (LearnerProfile.topic_performance p) in
  let exams := Py.len (LearnerProfile.exam_history p) in
  let result := get_next_milestone "fay" Sample.fay_engine in
  total = 203 /\ correct = 142 /\ topics = 3 /\ exams = 3 /\
  (100 * inject_Z correct / inject_Z total < 70)%Q /\
  (Py.float_value (Py.true_div correct total * 100)%float < 70)%Q /\
  Spec.ladder total topics exams (100 * inject_Z correct / inject_Z total)%Q
  = [("Beginner", true); ("Explorer", true); ("Committed", true);
     ("Proficient", false); ("Expert", false); ("Master", false)] /\
  mr_current result = "Proficient" /\
  mr_next result = "Expert".
Proof.
  cbv zeta. repeat split; vm_compute; reflexivity.
Qed.

(** C6, amended.  For a known learner [get_next_milestone] walks the
    ladder Beginner (5 questions), Explorer (3 topics), Committed (3 exams),
    Proficient (25 questions at 70), Expert (50 questions at 85), Master
    (100 questions at 90) over the counters of the profile, where the
    accuracy compared with 70, 85 and 90 is the percentage of correct
    attempts rounded to one decimal, so that these gates are met from
    69.95, 84.95 and 89.95 on.  When the ladder splits into a prefix
    of met milestones followed by an unmet one, that one is "next" and
    "current" is the last milestone of the prefix ("Novice" for the empty
    prefix); when all six are met, current is "Master" and the progress is
    "Complete". *)
Theorem get_next_milestone_first_unmet
    (e : RecommendationEngine.t) (learner_id : string) (p : LearnerProfile.t) :
  LearnerProfileManager.profiles (learner_manager e) !! learner_id = Some p ->
  let total := Py.len (LearnerProfile.attempts p) in
  let correct := Py.len (List.filter QuestionAttempt.correct (LearnerProfile.attempts p)) in
  let percentage :=
    if 0 <? total then (Py.true_div correct total * 100)%float else 0%float in
  let steps :=
    Spec.ladder total
      (Py.len (LearnerProfile.topic_performance p))
      (Py.len (LearnerProfile.exam_history p))
      (Py.round (Py.float_value percentage) 1) in
  let result := get_next_milestone learner_id e in
  steps
  = [("Beginner", 5 <=? total);
     ("Explorer", 3 <=? Py.len (LearnerProfile.topic_performance p));
     ("Committed", 3 <=? Py.len (LearnerProfile.exam_history p));
     ("Proficient", (25 <=? total) && Qle_bool 69.95 (Py.float_value percentage));
     ("Expert", (50 <=? total) && Qle_bool 84.95 (Py.float_value percentage));
     ("Master", (100 <=? total) && Qle_bool 89.95 (Py.float_value percentage))] /\
  (forall met name later,
     steps = met ++ (name, false) :: later ->
     Forall (fun step => snd step = true) met ->
     mr_next result = name /\
     mr_current result = default "Novice" (last (map fst met))) /\
  (Forall (fun step => snd step = true) steps ->
   mr_current result = "Master" /\ mr_next result = "Master" /\
   mr_progress result = "Complete").
Proof.
  intros Hp total correct percentage steps result.
  split; [apply ladder_rounded|]. subst steps result.
  unfold get_next_milestone, LearnerProfileManager.get_all_performance_data.
  rewrite Hp.
  cbn [LearnerProfileManager.pd_total_questions LearnerProfileManager.pd_topics_practiced
       LearnerProfileManager.pd_exams_completed LearnerProfileManager.pd_overall_accuracy].
  fold total correct. fold percentage.
  rewrite <- milestones_ladder.
  set (ms := milestones _ _ _ _). split.
  - intros met name later Hsplit Hmet.
    apply map_eq_app in Hsplit as (pre & tail & Hms & Hpre & Htail).
    apply map_eq_cons in Htail as (m & rest & -> & Hm & _).
    injection Hm as Hname Hcheck.
    assert (Hpre_met : Forall (fun m => ms_check m = true) pre).
    { subst met. apply Forall_forall. intros x Hx. rewrite Forall_forall in Hmet.
      apply (Hmet (ms_name x, ms_check x)).
      apply list_elem_of_In, in_map_iff. exists x. split; [reflexivity|].
      apply list_elem_of_In, Hx. }
    rewrite Hms, (walk_first_unmet pre m rest Hpre_met Hcheck). cbn.
    split; [exact Hname|]. subst met. rewrite map_map. reflexivity.
  - intros Hall.
    assert (Hms : Forall (fun m => ms_check m = true) ms).
    { apply Forall_forall. intros x Hx. rewrite Forall_forall in Hall.
      apply (Hall (ms_name x, ms_check x)).
      apply list_elem_of_In, in_map_iff. exists x. split; [reflexivity|].
      apply list_elem_of_In, Hx. }
    rewrite (walk_all_met ms Hms). cbn. auto.
Qed.

(** 28 questions at 75%, four topics, three exams: Beginner to Proficient
    are met and Expert is next. *)
Lemma get_next_milestone_first_unmet_witness :
  mr_next (get_next_milestone "dan" Sample.dan_engine) = "Expert" /\
  mr_current (get_next_milestone "dan" Sample.dan_engine) = "Proficient".
Proof.
  destruct (get_next_milestone_first_unmet Sample.dan_engine "dan" Sample.dan)
    as (_ & Hfirst & _); [reflexivity|].
  apply (Hfirst [("Beginner", true); ("Explorer", true); ("Committed", true);
                 ("Proficient", true)]
           "Expert" [("Master", false)]); [vm_compute; reflexivity|].
  repeat constructor.
Defined.

(** The spec's examples: no attempt yet; 30 questions at 75% with four
    topics and three exams; an unknown learner. *)
Example get_next_milestone_fresh :
  get_next_milestone "ann" (RecommendationEngine.mk Sample.store ∅)
  = mkMilestoneResult "Novice" "Beginner" "0/5 questions" "Answer 5 questions".
Proof. reflexivity. Qed.

Example walk_thirty_questions :
  walk (milestones 30 4 3 75) "Novice" (head (milestones 30 4 3 75))
  = ("Proficient",
     Some (mkMilestone "Expert" false "30/50 questions, 75%/85% accuracy"
             "Answer 50 questions with 85%+ accuracy")).
Proof. reflexivity. Qed.

Example get_next_milestone_unknown :
  get_next_milestone "zed" (RecommendationEngine.mk Sample.store ∅)
  = mkMilestoneResult "Novice" "Beginner" "0/3" "Practice 3 different topics".
Proof. reflexivity. Qed.

End Milestones.

(** ** Focused exams *)

Section FocusedExam.

Import RecommendationEngine.

Lemma dict_set_length {V : Type} (k : string) (v : V) (d : dict V) :
  (length (Dict.set k v d) <= S (length d))%nat.
Proof.
  induction d as [|[k' v'] d IH]; cbn; [lia|].
  destruct (decide (k = k')); cbn; lia.
Qed.

(** A dictionary filled by one assignment per element of a list. *)
Lemma fold_set_spec {X V : Type} (key : X -> string) (val : X -> V) (l : list X) :
  forall d0 : dict V,
  let d := fold_left (fun d x => Dict.set (key x) (val x) d) l d0 in
  (forall k v, Dict.get k d = Some v ->
     (exists x, x ∈ l /\ key x = k /\ v = val x) \/ Dict.get k d0 = Some v) /\
  (forall k, k ∈ map key l -> is_Some (Dict.get k d)) /\
  (forall k, is_Some (Dict.get k d0) -> is_Some (Dict.get k d)) /\
  (length d <= length d0 + length l)%nat.
Proof.
  induction l as [|x l IH]; intros d0; cbn.
  - repeat split; auto; [intros k Hk; inversion Hk | lia].
  - destruct (IH (Dict.set (key x) (val x) d0)) as (Hget & Hkeys & Hkeep & Hlen).
    split; [|split; [|split]].
    + intros k v Hk. destruct (Hget k v Hk) as [(y & Hy & Hky & Hv)|Hold].
      * left. exists y. split; [apply elem_of_cons; auto | auto].
      * destruct (decide (key x = k)) as [<-|Hne].
        -- rewrite dict_get_set_eq in Hold. injection Hold as <-.
           left. exists x. split; [apply elem_of_cons; auto | auto].
        -- rewrite dict_get_set_ne in Hold by exact Hne. auto.
    + intros k Hk. apply elem_of_cons in Hk as [->|Hk]; [|auto].
      apply Hkeep. rewrite dict_get_set_eq. eauto.
    + intros k Hk. apply Hkeep. destruct (decide (key x = k)) as [<-|Hne].
      * rewrite dict_get_set_eq. eauto.
      * rewrite dict_get_set_ne by exact Hne. exact Hk.
    + pose proof (dict_set_length (key x) (val x) d0). lia.
Qed.

Lemma take_length_le {X : Type} (n : Z) (l : list X) :
  0 <= n -> (length (Py.take n l) <= Z.to_nat n)%nat.
Proof. intros _. unfold Py.take. rewrite length_take. lia. Qed.

(** C9, as stated, fails when more weak areas are reported than receive
    questions: with four weak topics and 12 questions, three topics receive
    3 questions each, not 12 split over the three. *)
Lemma generate_focused_exam_four_weak_topics :
  let plan := generate_focused_exam "eve" 12 Sample.eve_engine in
  Dict.keys (fe_topic_distribution plan) = ["Shock"; "Ards"; "Sepsis"] /\
  fe_skill_distribution plan = [] /\
  map (fun kv => tpl_num_questions (snd kv)) (fe_topic_distribution plan) = [3; 3; 3] /\
  Z.max 2 (12 / Py.len (fe_topic_distribution plan)) = 4.
Proof.
  cbv zeta. repeat split.
Qed.

(** C9, amended.  Without weak skills and weak topics the plan is the
    comprehensive review with empty distributions.  Otherwise the plan is a
    gap remediation: the first (at most three) weak topics and the first (at
    most two) weak skills each receive the same number of questions,
    [max(2, num_questions // W)], where [W] counts all weak topics and weak
    skills reported (each list has at most five); the recommended list names
    the topics first. *)
Theorem generate_focused_exam_plan
    (e : RecommendationEngine.t) (learner_id : string) (num_questions : Z) :
  let weak_skills := get_weak_skills learner_id 0.7 e in
  let weak_topics := get_weak_topics learner_id 0.7 e in
  let plan := generate_focused_exam learner_id num_questions e in
  let share := Z.max 2 (num_questions / (Py.len weak_topics + Py.len weak_skills)) in
  (weak_skills = [] /\ weak_topics = [] ->
   fe_focus plan = "comprehensive_review" /\
   fe_skill_distribution plan = [] /\
   fe_topic_distribution plan = []) /\
  (~ (weak_skills = [] /\ weak_topics = []) ->
   fe_focus plan = "gap_remediation" /\
   2 <= share /\
   (forall k tp,
      Dict.get k (fe_topic_distribution plan) = Some tp ->
      tpl_num_questions tp = share /\ k ∈ map wt_topic (Py.take 3 weak_topics)) /\
   (forall k,
      k ∈ map wt_topic (Py.take 3 weak_topics) ->
      is_Some (Dict.get k (fe_topic_distribution plan))) /\
   (forall k sp,
      Dict.get k (fe_skill_distribution plan) = Some sp ->
      spl_num_questions sp = share /\ k ∈ map ws_skill_id (Py.take 2 weak_skills)) /\
   (forall k,
      k ∈ map ws_skill_id (Py.take 2 weak_skills) ->
      is_Some (Dict.get k (fe_skill_distribution plan))) /\
   (length (fe_topic_distribution plan) <= 3)%nat /\
   (length (fe_skill_distribution plan) <= 2)%nat /\
   (Py.len weak_topics <= 5 /\ Py.len weak_skills <= 5) /\
   fe_recommended_topics plan
     = Some (map wt_topic (Py.take 3 weak_topics)
             ++ map ws_skill_name (Py.take 2 weak_skills))).
Proof.
  intros weak_skills weak_topics plan share.
  assert (Hcap : Py.len weak_topics <= 5 /\ Py.len weak_skills <= 5).
  { subst weak_topics weak_skills. unfold get_weak_topics, get_weak_skills, Py.len.
    split.
    - pose proof (take_length_le 5
        (Py.sort (fun x y => Qle_bool (wt_accuracy x) (wt_accuracy y))
           (map (weak_topic 0.7)
              (List.filter
                 (fun info => Py.lt (LearnerProfileManager.ti_accuracy info) 0.7)
                 (LearnerProfileManager.get_topic_weaknesses learner_id
                    (learner_manager e)))))) as H.
      change (Z.to_nat 5) with 5%nat in H. lia.
    - pose proof (take_length_le 5
        (Py.sort (fun x y => Qle_bool (ws_accuracy x) (ws_accuracy y))
           (map (weak_skill e 0.7)
              (List.filter
                 (fun gap => Py.lt (LearnerProfileManager.si_accuracy gap) 0.7)
                 (LearnerProfileManager.get_skill_gaps learner_id
                    (learner_manager e)))))) as H.
      change (Z.to_nat 5) with 5%nat in H. lia. }
  subst plan. unfold generate_focused_exam. fold weak_skills weak_topics.
  split.
  - intros [-> ->]. auto.
  - intros Hsome.
    set (per_area := Z.max 2 (num_questions / Z.max (Py.len weak_topics + Py.len weak_skills) 1)).
    assert (Hshare : per_area = share).
    { subst per_area share. f_equal. f_equal. apply Z.max_l.
      unfold Py.len. destruct weak_skills, weak_topics; cbn [length]; [tauto| | |]; lia. }
    set (topics := fold_left _ (Py.take 3 weak_topics) []).
    set (skills := fold_left _ (Py.take 2 weak_skills) []).
    assert (Hplan :
      match weak_skills, weak_topics with
      | [], [] =>
          mkFocusedExam "comprehensive_review"
            "Great job! No major gaps identified. This will be a comprehensive review."
            [] [] None
      | _, _ =>
          mkFocusedExam "gap_remediation"
            ("This exam focuses on your "
             +:+ Py.str (Py.len (map wt_topic (Py.take 3 weak_topics)
                                 ++ map ws_skill_name (Py.take 2 weak_skills)))
             +:+ " weakest areas: "
             +:+ Py.join ", " (map wt_topic (Py.take 3 weak_topics)
                               ++ map ws_skill_name (Py.take 2 weak_skills)))
            skills topics
            (Some (map wt_topic (Py.take 3 weak_topics)
                   ++ map ws_skill_name (Py.take 2 weak_skills)))
      end
      = mkFocusedExam "gap_remediation"
          ("This exam focuses on your "
           +:+ Py.str (Py.len (map wt_topic (Py.take 3 weak_topics)
                               ++ map ws_skill_name (Py.take 2 weak_skills)))
           +:+ " weakest areas: "
           +:+ Py.join ", " (map wt_topic (Py.take 3 weak_topics)
                             ++ map ws_skill_name (Py.take 2 weak_skills)))
          skills topics
          (Some (map wt_topic (Py.take 3 weak_topics)
                 ++ map ws_skill_name (Py.take 2 weak_skills)))).
    { destruct weak_skills, weak_topics; try reflexivity. tauto. }
    rewrite Hplan. cbn [fe_focus fe_skill_distribution fe_topic_distribution
                          fe_recommended_topics].
    destruct (fold_set_spec wt_topic
                (fun t => mkTopicPlan per_area (percent (wt_accuracy t)))
                (Py.take 3 weak_topics) []) as (Htget & Htkeys & _ & Htlen).
    destruct (fold_set_spec ws_skill_id
                (fun w => mkSkillPlan (ws_skill_name w) per_area (percent (ws_accuracy w)))
                (Py.take 2 weak_skills) []) as (Hsget & Hskeys & _ & Hslen).
    fold topics in Htget, Htkeys, Htlen. fold skills in Hsget, Hskeys, Hslen.
    split; [reflexivity|]. split; [subst share; lia|].
    split; [|split; [exact Htkeys|split; [|split; [exact Hskeys|split; [|split]]]]].
    + intros k tp Hk. destruct (Htget k tp Hk) as [(x & Hx & <- & ->)|Hnil]; [|discriminate].
      split; [exact Hshare|]. apply list_elem_of_In, in_map, list_elem_of_In, Hx.
    + intros k sp Hk. destruct (Hsget k sp Hk) as [(x & Hx & <- & ->)|Hnil]; [|discriminate].
      split; [exact Hshare|]. apply list_elem_of_In, in_map, list_elem_of_In, Hx.
    + pose proof (take_length_le 3 weak_topics) as H.
      change (Z.to_nat 3) with 3%nat in H. cbn [length] in Htlen. lia.
    + pose proof (take_length_le 2 weak_skills) as H.
      change (Z.to_nat 2) with 2%nat in H. cbn [length] in Hslen. lia.
    + split; [exact Hcap | reflexivity].
Qed.

(** Four weak topics, 12 questions: the share is [max(2, 12 // 4) = 3]. *)
Lemma generate_focused_exam_plan_witness :
  fe_focus (generate_focused_exam "eve" 12 Sample.eve_engine) = "gap_remediation" /\
  forall k tp,
    Dict.get k (fe_topic_distribution (generate_focused_exam "eve" 12 Sample.eve_engine))
      = Some tp ->
    tpl_num_questions tp = 3.
Proof.
  destruct (generate_focused_exam_plan Sample.eve_engine "eve" 12) as [_ Hplan].
  destruct Hplan as (Hfocus & _ & Htopics & _).
  - intros [_ Hnil]. vm_compute in Hnil. discriminate.
  - split; [exact Hfocus|]. intros k tp Hk.
    destruct (Htopics k tp Hk) as [Hshare _]. rewrite Hshare. reflexivity.
Defined.

End FocusedExam.
